(** * Inverse distance weighting on a grid

    A shallow embedding of [src/dist/static/js/idw.js]: the two
    interpolation entry points [interpolate] and [interpolate2] and the
    helper [genSquareGrid].

    JavaScript numbers are IEEE 754 binary64 values.  The code is embedded
    over an interface [Number] of the arithmetic it uses, whose instance
    [binary64] (Rocq's primitive floats) is the arithmetic the program runs
    on; properties that do not depend on the arithmetic are proved over the
    interface.  Functions imported from turf and [Math.pow] are not part of
    the file under study; they are gathered in a record [Host] that every
    function takes as an argument. *)

From Stdlib Require Import ZArith List String Bool Lia Floats Reals Lra.
From stdpp Require Import base option list strings gmap.

#[local] Set Warnings "-inexact-float".
#[local] Open Scope string_scope.

(** ** Exceptions *)

(** [throw new Error(msg)], and the [TypeError] the engine raises when a
    property is read from [undefined]. *)
Inductive exn :=
  | Error (message : string)
  | TypeError.

Inductive result (A : Type) :=
  | Ok (a : A)
  | Throw (e : exn).
Arguments Ok {A} a.
Arguments Throw {A} e.

#[global] Instance result_ret : MRet result := @Ok.
#[global] Instance result_bind : MBind result :=
  λ A B k c, match c with Ok a => k a | Throw e => Throw e end.

(** A left fold whose step may throw: the shape of a [featureEach] callback
    that updates variables of the enclosing function. *)
Fixpoint foldM {S A : Type} (step : S → A → result S) (s : S) (l : list A)
  : result S :=
  match l with
  | [] => Ok s
  | x :: l => s' ← step s x; foldM step s' l
  end.

(** ** The arithmetic of the program *)

Class Number (num : Type) := {
  (** a numeric literal of the source text *)
  lit : float → num;
  nadd : num → num → num;
  nsub : num → num → num;
  nmul : num → num → num;
  ndiv : num → num → num;
  Math_abs : num → num;
  Math_ceil : num → num;
  (** [x < y], [x <= y] and [x === y] *)
  nlt : num → num → bool;
  nle : num → num → bool;
  neq : num → num → bool;
  (** ToBoolean: what [!x] and [x || y] test *)
  truthy : num → bool;
  (** the array index a number denotes when used as a property key *)
  index : num → option Z
}.
Arguments lit {num _} _%_float.

Declare Scope js_scope.
Delimit Scope js_scope with js.
Notation "x + y" := (nadd x y) : js_scope.
Notation "x - y" := (nsub x y) : js_scope.
Notation "x * y" := (nmul x y) : js_scope.
Notation "x / y" := (ndiv x y) : js_scope.
Notation "x <? y" := (nlt x y) (at level 70, no associativity) : js_scope.
Notation "x >? y" := (nlt y x) (at level 70, no associativity) : js_scope.
Notation "x <=? y" := (nle x y) (at level 70, no associativity) : js_scope.
Notation "x === y" := (neq x y) (at level 70, no associativity) : js_scope.

(** *** binary64 *)

Definition float_of_Z (z : Z) : float := PrimFloat.of_uint63 (Uint63.of_Z z).

(** [Math.ceil]: the least integer not below [x]; NaN, the infinities and
    the zeros are returned unchanged, and a negative [x] above -1 gives -0.
    A finite float is [m * 2^e]; with [0 <= e] it is an integer already,
    otherwise its integer part is below 2^52 and converts exactly. *)
Definition ceil64 (x : float) : float :=
  match Prim2SF x with
  | S754_finite s m e =>
      if (0 <=? e)%Z then x
      else
        let k := (2 ^ (- e))%Z in
        let q := (Z.pos m / k)%Z in
        let r := (Z.pos m mod k)%Z in
        if s then (if (q =? 0)%Z then neg_zero else - float_of_Z q)%float
        else float_of_Z (if (r =? 0)%Z then q else q + 1)
  | _ => x
  end.

(** The integer a float is, when it is a non-negative one. *)
Definition index64 (x : float) : option Z :=
  match Prim2SF x with
  | S754_zero _ => Some 0%Z
  | S754_finite false m e =>
      if (0 <=? e)%Z then Some (Z.pos m * 2 ^ e)%Z
      else
        let k := (2 ^ (- e))%Z in
        if (Z.pos m mod k =? 0)%Z then Some (Z.pos m / k)%Z else None
  | _ => None
  end.

#[global] Instance binary64 : Number float := {
  lit x := x;
  nadd := PrimFloat.add;
  nsub := PrimFloat.sub;
  nmul := PrimFloat.mul;
  ndiv := PrimFloat.div;
  Math_abs := PrimFloat.abs;
  Math_ceil := ceil64;
  nlt := PrimFloat.ltb;
  nle := PrimFloat.leb;
  neq := PrimFloat.eqb;
  truthy x := negb (PrimFloat.eqb x 0 || PrimFloat.is_nan x);
  index := index64
}.

(** *** The number a value stands for *)

(** The real number a finite binary64 value is; the infinities and NaN,
    which are no numbers, are sent to 0. *)
Definition R_of_float (x : float) : R :=
  match Prim2SF x with
  | S754_finite s m e =>
      let a := (IZR (Z.pos m) * powerRZ 2 e)%R in
      if s then (- a)%R else a
  | _ => 0%R
  end.

(** ** Data model: GeoJSON features *)

Section Model.
Context {num : Type} `{Number num}.
Local Open Scope js_scope.

Inductive Geometry :=
  | Point (coordinates : list num)
  | LineString (coordinates : list (list num))
  | Polygon (coordinates : list (list (list num))).

(** A feature: a geometry and a [properties] object, a map from attribute
    names to values of type [A]. *)
Record Feature (A : Type) := mkFeature {
  geometry : Geometry;
  properties : gmap string A
}.
Arguments mkFeature {A} geometry properties.
Arguments geometry {A} f.
Arguments properties {A} f.

Record FeatureCollection (A : Type) := featureCollection {
  features : list (Feature A)
}.
Arguments featureCollection {A} features.
Arguments features {A} f.

(** The attributes of a sample are its measurements, numbers.  A grid cell
    carries the number written by the interpolation and the colour string
    of its bucket. *)
Inductive value :=
  | VNum (n : num)
  | VStr (s : string).

Local Abbreviation Sample := (Feature num).
Local Abbreviation Cell := (Feature value).

(** One entry of the bucket table; only [fillcolor] is read. *)
Record Break := mkBreak { fillcolor : string }.

(** The options object.  A field that is absent reads as [undefined]:
    [None]. *)
Record Options := mkOptions {
  gridType : option string;
  property : option string;
  units : option string;
  weight : option num;
  breakProperties : option (list Break);
  colorProperty : option string;
  valid : option num
}.

(** ** What the module imports

    [bbox], the four grid builders, [distance] and [centroid] come from
    turf, [Math_pow] from the engine.  The ones that validate their
    arguments may throw. *)
Record Host := mkHost {
  Math_pow : num → num → num;
  bbox : option (FeatureCollection num) → result (list num);
  pointGrid : list num → option num → Options → result (FeatureCollection value);
  squareGrid : list num → option num → Options → result (FeatureCollection value);
  hexGrid : list num → option num → Options → result (FeatureCollection value);
  triangleGrid : list num → option num → Options → result (FeatureCollection value);
  distance : Geometry → Geometry → Options → result num;
  centroid : Geometry → Geometry
}.

(** [clone] makes a deep copy; values here are immutable. *)
Definition clone (f : Cell) : Cell := f.

Definition typeName (g : Geometry) : string :=
  match g with
  | Point _ => "Point"
  | LineString _ => "LineString"
  | Polygon _ => "Polygon"
  end.

(** [collectionOf(points, 'Point', name)] of [@turf/invariant]: throws at
    the first feature whose geometry is not of the given type. *)
Fixpoint collectionOf {A} (fs : list (Feature A)) (type name : string)
  : result unit :=
  match fs with
  | [] => Ok tt
  | f :: fs =>
      if String.eqb (typeName (geometry f)) type then collectionOf fs type name
      else Throw (Error ("Invalid input to " ++ name ++ ": must be a " ++ type
                         ++ ", given " ++ typeName (geometry f)))
  end.

(** ** Pieces shared by the two entry points *)

(** [property = property || 'elevation'] (the empty string is falsy). *)
Definition propertyName (options : Options) : string :=
  match property options with
  | Some s => if String.eqb s "" then "elevation" else s
  | None => "elevation"
  end.

(** [gridType = gridType || 'square'] *)
Definition gridTypeName (options : Options) : string :=
  match gridType options with
  | Some s => if String.eqb s "" then "square" else s
  | None => "square"
  end.

(** [weight = weight || 1] *)
Definition exponent (options : Options) : num :=
  match weight options with
  | Some w => if truthy w then w else lit 1
  | None => lit 1
  end.

(** The key [colorProperty] denotes; [undefined] as a key is the string
    "undefined". *)
Definition colorKey (options : Options) : string :=
  match colorProperty options with
  | Some s => s
  | None => "undefined"
  end.

(** Lines 90-94 and 154-158: the attribute has priority, the third
    coordinate is the fallback. *)
Definition zValueOf (property : string) (point : Sample) : result num :=
  match properties point !! property with
  | Some z => Ok z
  | None =>
      match geometry point with
      | Point coordinates =>
          match coordinates !! 2%nat with
          | Some z => Ok z
          | None => Throw (Error "zValue is missing")
          end
      | _ => Throw (Error "zValue is missing")
      end
  end.

(** [(gridType === 'point') ? gridFeature : centroid(gridFeature)] *)
Definition gridPointOf (h : Host) (gridType : string) (gridFeature : Cell)
  : Geometry :=
  if String.eqb gridType "point" then geometry gridFeature
  else centroid h (geometry gridFeature).

(** [breakProperties[order]]: [undefined] unless [order] is an index of
    the table. *)
Definition tableGet (table : list Break) (order : num) : option Break :=
  match index order with
  | Some i => if (i <? Z.of_nat (length table))%Z then table !! Z.to_nat i else None
  | None => None
  end.

Definition setProperty (f : Cell) (key : string) (v : value) : Cell :=
  mkFeature (geometry f) (<[key := v]> (properties f)).

(** ** [interpolate] *)

(** Lines 87-100: one sample's contribution to the running sums
    [(zw, sw)] of a cell. *)
Definition accumulateStep (h : Host) (options : Options) (gridFeature : Cell)
    (acc : num * num) (point : Sample) : result (num * num) :=
  let '(zw, sw) := acc in
  let gridPoint := gridPointOf h (gridTypeName options) gridFeature in
  d ← distance h gridPoint (geometry point) options;
  zValue ← zValueOf (propertyName options) point;
  let zw := if d === lit 0 then zValue else zw in
  let w := lit 1 / Math_pow h d (exponent options) in
  let sw := sw + w in
  let zw := zw + w * zValue in
  Ok (zw, sw).

Definition accumulate (h : Host) (options : Options) (points : list Sample)
    (gridFeature : Cell) : result (num * num) :=
  foldM (accumulateStep h options gridFeature) (lit 0, lit 0) points.

(** Lines 108-113: the bucket of an interpolated value. *)
Definition orderOf (v : num) : num :=
  if v <? lit 0 then lit 15 - Math_ceil (Math_abs v / lit 2)
  else Math_ceil (v / lit 2) + lit 14.

(** Line 114: [breakProperties[order].fillcolor] reads a property of
    [undefined] when the table or the entry is missing. *)
Definition paint (options : Options) (order : num) (newFeature : Cell)
  : result Cell :=
  match breakProperties options with
  | None => Throw TypeError
  | Some table =>
      match tableGet table order with
      | None => Throw TypeError
      | Some b => Ok (setProperty newFeature (colorKey options) (VStr (fillcolor b)))
      end
  end.

(** Lines 101-115: the cell written for the sums [(zw, sw)]. *)
Definition finish (options : Options) (gridFeature : Cell) (acc : num * num)
  : result Cell :=
  let '(zw, sw) := acc in
  let newFeature := clone gridFeature in
  let v := zw / sw in
  let newFeature := setProperty newFeature (propertyName options) (VNum v) in
  paint options (orderOf v) newFeature.

(** Lines 62-81: the grid of the requested shape. *)
Definition buildGrid (h : Host) (box : list num) (cellSize : num)
    (options : Options) : result (FeatureCollection value) :=
  let gridType := gridTypeName options in
  if String.eqb gridType "point" || String.eqb gridType "points"
  then pointGrid h box (Some cellSize) options
  else if String.eqb gridType "square" || String.eqb gridType "squares"
  then squareGrid h box (Some cellSize) options
  else if String.eqb gridType "hex" || String.eqb gridType "hexes"
  then hexGrid h box (Some cellSize) options
  else if String.eqb gridType "triangle" || String.eqb gridType "triangles"
  then triangleGrid h box (Some cellSize) options
  else Throw (Error "invalid gridType").

Definition interpolate (h : Host) (points : option (FeatureCollection num))
    (cellSize : option num) (options : Options)
  : result (FeatureCollection value) :=
  match points with
  | None => Throw (Error "points is required")
  | Some points =>
      _ ← collectionOf (features points) "Point" "input must contain Points";
      match cellSize with
      | None => Throw (Error "cellSize is required")
      | Some cellSize =>
          if negb (truthy cellSize) then Throw (Error "cellSize is required")
          else
            box ← bbox h (Some points);
            grid ← buildGrid h box cellSize options;
            results ← mapM (λ gridFeature,
                              acc ← accumulate h options (features points) gridFeature;
                              finish options gridFeature acc)
                           (features grid);
            Ok (featureCollection results)
      end
  end.

(** ** [genSquareGrid] *)

Definition genSquareGrid (h : Host) (points : option (FeatureCollection num))
    (cellSize : option num) (options : Options)
  : result (FeatureCollection value) :=
  box ← bbox h points;
  squareGrid h box cellSize options.

(** ** [interpolate2] *)

(** [Math.abs(zValue) < options.valid]; a comparison with [undefined] is
    false. *)
Definition passes (options : Options) (zValue : num) : bool :=
  match valid options with
  | Some t => Math_abs zValue <? t
  | None => false
  end.

(** Lines 152-166. *)
Definition accumulateStep2 (h : Host) (options : Options) (gridFeature : Cell)
    (acc : num * num) (point : Sample) : result (num * num) :=
  let '(zw, sw) := acc in
  let gridPoint := gridPointOf h (gridTypeName options) gridFeature in
  zValue ← zValueOf (propertyName options) point;
  if passes options zValue then
    d ← distance h gridPoint (geometry point) options;
    let zw := if d === lit 0 then zValue else zw in
    let w := lit 1 / Math_pow h d (exponent options) in
    let sw := sw + w in
    let zw := zw + w * zValue in
    Ok (zw, sw)
  else Ok (zw, sw).

Definition accumulate2 (h : Host) (options : Options) (points : list Sample)
    (gridFeature : Cell) : result (num * num) :=
  foldM (accumulateStep2 h options gridFeature) (lit 0, lit 0) points.

(** Lines 174-253: the bucket under the scheme the property names. *)
Definition orderOf2 (property : string) (v : num) : num :=
  if String.eqb property "tem" then
    if v <? lit 0 then lit 15 - Math_ceil (Math_abs v / lit 2)
    else Math_ceil (v / lit 2) + lit 14
  else if String.eqb property "prs" then
    if v <? lit 969 then lit 0
    else if v >? lit 1017 then lit 16
    else Math_ceil ((v - lit 969) / lit 3) - lit 1
  else if String.eqb property "rhu" then
    if v <=? lit 0 then lit 0
    else if v >? lit 100 then lit 9
    else Math_ceil (v / lit 10) - lit 1
  else if String.eqb property "winSMax" then
    if v <=? lit 2.5 then lit 0
    else if v <=? lit 5.5 then lit 1
    else if v <=? lit 5.5 then lit 2
    else if v <=? lit 8.3 then lit 3
    else if v <=? lit 11.1 then lit 4
    else if v <=? lit 13.9 then lit 5
    else if v <=? lit 17.4 then lit 6
    else if v <=? lit 20.9 then lit 7
    else if v <=? lit 24.5 then lit 8
    else if v <=? lit 29 then lit 9
    else if v <=? lit 33 then lit 10
    else if v <=? lit 37 then lit 11
    else if v <=? lit 42 then lit 12
    else if v <=? lit 47 then lit 13
    else if v <=? lit 51 then lit 14
    else if v <=? lit 67 then lit 15
    else lit 16
  else if String.eqb property "pre1h" then
    if v <=? lit 0.2 then lit 0
    else if v <=? lit 2 then lit 1
    else if v <=? lit 4 then lit 2
    else if v <=? lit 6 then lit 3
    else if v <=? lit 8 then lit 4
    else if v <=? lit 10 then lit 5
    else if v <=? lit 20 then lit 6
    else if v <=? lit 50 then lit 7
    else lit 8
  else lit 0.

(** Lines 254-256: the colour is assigned only when the table has the
    entry; reading [breakProperties[order]] still needs the table. *)
Definition paint2 (options : Options) (order : num) (newFeature : Cell)
  : result Cell :=
  match breakProperties options with
  | None => Throw TypeError
  | Some table =>
      match tableGet table order with
      | None => Ok newFeature
      | Some b => Ok (setProperty newFeature (colorKey options) (VStr (fillcolor b)))
      end
  end.

(** Lines 167-258. *)
Definition finish2 (options : Options) (gridFeature : Cell) (acc : num * num)
  : result Cell :=
  let '(zw, sw) := acc in
  let newFeature := clone gridFeature in
  let v := zw / sw in
  let newFeature := setProperty newFeature (propertyName options) (VNum v) in
  paint2 options (orderOf2 (propertyName options) v) newFeature.

Definition interpolate2 (h : Host) (points : option (FeatureCollection num))
    (grid : FeatureCollection value) (options : Options)
  : result (FeatureCollection value) :=
  match points with
  | None => Throw (Error "points is required")
  | Some points =>
      _ ← collectionOf (features points) "Point" "input must contain Points";
      results ← mapM (λ gridFeature,
                        acc ← accumulate2 h options (features points) gridFeature;
                        finish2 options gridFeature acc)
                     (features grid);
      Ok (featureCollection results)
  end.

(** ** A condition on the host

    [distance] returns a number on every pair of a cell of the grid and a
    sample. *)
Definition distanceReturns (h : Host) (options : Options) (grid : list Cell)
    (points : list Sample) : Prop :=
  ∀ g q, g ∈ grid → q ∈ points →
    ∃ d, distance h (gridPointOf h (gridTypeName options) g) (geometry q) options = Ok d.

End Model.

Arguments Geometry num : clear implicits.
Arguments Feature num A : clear implicits.
Arguments FeatureCollection num A : clear implicits.
Arguments value num : clear implicits.
Arguments Options num : clear implicits.
Arguments Host num : clear implicits.
Arguments mkFeature {num A} geometry properties.
Arguments geometry {num A} f.
Arguments properties {num A} f.
Arguments featureCollection {num A} features.
Arguments features {num A} f.

Abbreviation Sample num := (Feature num num) (only parsing).
Abbreviation Cell num := (Feature num (value num)) (only parsing).

(** ** A host to run the code on

    A planar stand-in for the turf functions: coordinates are read as
    plane coordinates in the unit of the cell size, the bounding box is
    [[west; south; east; north]], a grid is the lattice of step [cellSize]
    anchored at the south-west corner (squares stand in for hexagons and
    triangles), and the centroid of a polygon is the mean of its vertices.
    The square root and the infinite bound are parameters of the
    arithmetic. *)

Section Planar.
Context {num : Type} `{Number num}.
Variable sqrt : num → num.
Variable infinity : num.
Local Open Scope js_scope.

Definition nmin (a b : num) : num := if b <? a then b else a.
Definition nmax (a b : num) : num := if a <? b then b else a.

Definition boxOf (f : Sample num) : list num :=
  match geometry f with
  | Point (x :: y :: _) => [x; y; x; y]
  | _ => [infinity; infinity; lit 0 - infinity; lit 0 - infinity]
  end.

Definition planarBox (box : list num) (f : Sample num) : list num :=
  match box, geometry f with
  | [w; s; e; n], Point (x :: y :: _) => [nmin w x; nmin s y; nmax e x; nmax n y]
  | _, _ => box
  end.

(** The box of no point at all is the inverted infinite one. *)
Definition planarBbox (points : option (FeatureCollection num num))
  : result (list num) :=
  match points with
  | None => Throw TypeError
  | Some points =>
      match features points with
      | [] => Ok [infinity; infinity; lit 0 - infinity; lit 0 - infinity]
      | f :: fs => Ok (fold_left planarBox fs (boxOf f))
      end
  end.

Fixpoint lattice (fuel : nat) (lo hi step : num) : list num :=
  match fuel with
  | O => []
  | S fuel => if lo <=? hi then lo :: lattice fuel (lo + step) hi step else []
  end.

Definition planarPointGrid (box : list num) (cellSize : option num)
    (options : Options num) : result (FeatureCollection num (value num)) :=
  match box, cellSize with
  | [w; s; e; n], Some c =>
      Ok (featureCollection
            (x ← lattice 16 w e c; y ← lattice 16 s n c;
             [mkFeature (Point [x; y]) ∅]))
  | _, _ => Throw (Error "cellSide is required")
  end.

Definition planarSquareGrid (box : list num) (cellSize : option num)
    (options : Options num) : result (FeatureCollection num (value num)) :=
  match box, cellSize with
  | [w; s; e; n], Some c =>
      Ok (featureCollection
            (x ← lattice 16 w (e - c) c; y ← lattice 16 s (n - c) c;
             [mkFeature (Polygon [[[x; y]; [x + c; y]; [x + c; y + c];
                                   [x; y + c]; [x; y]]]) ∅]))
  | _, _ => Throw (Error "cellSide is required")
  end.

Definition planarDistance (a b : Geometry num) (options : Options num)
  : result num :=
  match a, b with
  | Point (x1 :: y1 :: _), Point (x2 :: y2 :: _) =>
      Ok (sqrt ((x1 - x2) * (x1 - x2) + (y1 - y2) * (y1 - y2)))
  | _, _ => Throw (Error "coord must be GeoJSON Point or an Array of numbers")
  end.

Definition vertexSum (acc : num * num * num) (c : list num) : num * num * num :=
  match acc, c with
  | (sx, sy, k), x :: y :: _ => (sx + x, sy + y, k + lit 1)
  | _, _ => acc
  end.

Definition planarCentroid (g : Geometry num) : Geometry num :=
  match g with
  | Polygon (ring :: _) =>
      let '(sx, sy, k) :=
        fold_left vertexSum (removelast ring) (lit 0, lit 0, lit 0) in
      Point [sx / k; sy / k]
  | _ => g
  end.

Definition planar (pow : num → num → num) : Host num :=
  mkHost pow planarBbox planarPointGrid planarSquareGrid planarSquareGrid
         planarSquareGrid planarDistance planarCentroid.

End Planar.

(** [Math.pow] where the examples need it: on the exponents 1, 2 and -1
    the correctly rounded power is [x], [x * x] and [1 / x].  Other
    exponents are not used here. *)
Definition pow64 (x y : float) : float :=
  if PrimFloat.eqb y 1 then x
  else if PrimFloat.eqb y 2 then (x * x)%float
  else if PrimFloat.eqb y (-1) then (1 / x)%float
  else PrimFloat.nan.

Definition planar64 : Host float :=
  planar PrimFloat.sqrt PrimFloat.infinity pow64.

(** ** Inputs the examples run on *)

Definition pointAt (x y : float) (attributes : gmap string float) : Sample float :=
  mkFeature (Point [x; y]) attributes.

(** A table of 32 buckets, coloured "c00" to "c31". *)
Definition palette : list Break :=
  map mkBreak
    ["c00"; "c01"; "c02"; "c03"; "c04"; "c05"; "c06"; "c07";
     "c08"; "c09"; "c10"; "c11"; "c12"; "c13"; "c14"; "c15";
     "c16"; "c17"; "c18"; "c19"; "c20"; "c21"; "c22"; "c23";
     "c24"; "c25"; "c26"; "c27"; "c28"; "c29"; "c30"; "c31"].

(** [{gridType: 'point', breakProperties: palette, colorProperty: 'color'}]:
    the property defaults to 'elevation', the exponent to 1. *)
Definition onPoints : Options float :=
  mkOptions (Some "point") None None None (Some palette) (Some "color") None.

(** The same for a named property and a validity threshold. *)
Definition onProperty (name : string) (threshold : float) : Options float :=
  mkOptions (Some "point") (Some name) None None (Some palette) (Some "color")
            (Some threshold).

(** Two samples of value 0.1, at distances 1 and 2 from the origin. *)
Definition twoEqual : FeatureCollection float float :=
  featureCollection
    [pointAt 0 1 {[ "elevation" := 0.1%float ]};
     pointAt 2 0 {[ "elevation" := 0.1%float ]}].

(** Two samples of value 6, at distances 1 and 2 from the origin. *)
Definition twoSixes : FeatureCollection float float :=
  featureCollection
    [pointAt 0 1 {[ "elevation" := 6%float ]};
     pointAt 2 0 {[ "elevation" := 6%float ]}].

(** Two samples, the first of them at the origin. *)
Definition atOrigin : FeatureCollection float float :=
  featureCollection
    [pointAt 0 0 {[ "elevation" := 5%float ]};
     pointAt 2 0 {[ "elevation" := 7%float ]}].

(** A sample with a value, and one with neither the attribute nor a third
    coordinate. *)
Definition oneMissing : FeatureCollection float float :=
  featureCollection
    [pointAt 0 1 {[ "elevation" := 3%float ]};
     pointAt 2 0 {[ "station" := 17%float ]}].

(** A pressure of 969 measured at distances 1 and 2 from the origin. *)
Definition pressure969 : FeatureCollection float float :=
  featureCollection
    [pointAt 0 1 {[ "prs" := 969%float ]};
     pointAt 2 0 {[ "prs" := 969%float ]}].

(** A temperature reading, and sentinel values in place of readings. *)
Definition reading : Sample float := pointAt 0 1 {[ "tem" := 21%float ]}.
Definition sentinel : Sample float := pointAt 1 0 {[ "tem" := 9999%float ]}.
Definition sentinels : FeatureCollection float float :=
  featureCollection [sentinel; pointAt 0 2 {[ "tem" := (-9999)%float ]}].

(** Options with a threshold and without a bucket table. *)
Definition noTable : Options float :=
  mkOptions (Some "point") (Some "tem") None None None (Some "color")
            (Some 1000%float).

Definition originCell : Cell float := mkFeature (Point [0; 0]%float) ∅.
Definition originGrid : FeatureCollection float (value float) :=
  featureCollection [originCell].

(** Two temperature readings at opposite corners of a square of side 4,
    and the options of a square grid (the default) under the ['tem']
    scheme with a threshold no reading reaches. *)
Definition corners : FeatureCollection float float :=
  featureCollection
    [pointAt 0 0 {[ "tem" := 20%float ]}; pointAt 4 4 {[ "tem" := 22%float ]}].

Definition onSquares : Options float :=
  mkOptions None (Some "tem") None None (Some palette) (Some "color")
            (Some 1000%float).

(** Wind speeds, and options that name the ['winSMax'] scheme and leave
    out the threshold [valid]. *)
Definition winds : FeatureCollection float float :=
  featureCollection
    [pointAt 0 1 {[ "winSMax" := 3.2%float ]};
     pointAt 2 0 {[ "winSMax" := 12%float ]}].

Definition windsNoThreshold : Options float :=
  mkOptions (Some "point") (Some "winSMax") None None (Some palette)
            (Some "color") None.

(** The planar host with a [bbox] that answers with a given box, as turf's
    does for a collection that carries a [bbox] member. *)
Definition boxedHost (box : list float) : Host float :=
  mkHost pow64 (λ _, Ok box)
         (planarPointGrid (num := float)) (planarSquareGrid (num := float))
         (planarSquareGrid (num := float)) (planarSquareGrid (num := float))
         (planarDistance PrimFloat.sqrt) (planarCentroid (num := float)).

(** ** Vocabulary of the further properties *)

Section Vocabulary.
Context {num : Type} `{Number num}.

(** The sample has a value and the value passes the filter of
    [interpolate2]. *)
Definition passing (options : Options num) (p : Sample num) : bool :=
  match zValueOf (propertyName options) p with
  | Ok z => passes options z
  | Throw _ => false
  end.

(** [r] is the cell [g] with a number under the property name and,
    possibly, a colour under the colour key. *)
Definition annotated (options : Options num) (g r : Cell num) : Prop :=
  ∃ v, r = setProperty g (propertyName options) (VNum v)
       ∨ ∃ c, r = setProperty (setProperty g (propertyName options) (VNum v))
                              (colorKey options) (VStr c).

End Vocabulary.

(** * Properties *)

(** ** The exception monad *)

Section Monad.
Context {A B : Type}.
Implicit Types (f g : A → result B) (l : list A).

Lemma mapM_cons f x l :
  mapM f (x :: l) = y ← f x; k ← mapM f l; Ok (y :: k).
Proof. reflexivity. Qed.

Lemma mapM_ext_in f g l :
  (∀ x, x ∈ l → f x = g x) → mapM f l = mapM g l.
Proof.
  induction l as [|x l IH]; intros E; [reflexivity|].
  rewrite !mapM_cons, (E x) by left.
  rewrite IH; [reflexivity|]. intros y Hy. apply E. by right.
Qed.

Lemma mapM_Ok_map f (g : A → B) l :
  (∀ x, x ∈ l → f x = Ok (g x)) → mapM f l = Ok (map g l).
Proof.
  induction l as [|x l IH]; intros E; [reflexivity|].
  rewrite mapM_cons, (E x) by left. simpl.
  rewrite IH; [reflexivity|]. intros y Hy. apply E. by right.
Qed.

Lemma mapM_Ok_Forall2 f l k :
  mapM f l = Ok k → Forall2 (λ x y, f x = Ok y) l k.
Proof.
  revert k. induction l as [|x l IH]; intros k.
  - intros [= <-]. constructor.
  - rewrite mapM_cons. destruct (f x) as [y|e] eqn:Ex; [|discriminate].
    simpl. destruct (mapM f l) as [k'|e]; [|discriminate].
    intros [= <-]. constructor; [exact Ex|]. by apply IH.
Qed.

Lemma mapM_Forall2_Ok f l k :
  Forall2 (λ x y, f x = Ok y) l k → mapM f l = Ok k.
Proof.
  induction 1 as [|x y l k Ex _ IH]; [reflexivity|].
  rewrite mapM_cons, Ex. simpl. rewrite IH. reflexivity.
Qed.

Lemma mapM_Ok_exists f (P : A → B → Prop) l :
  (∀ x, x ∈ l → ∃ y, f x = Ok y ∧ P x y) →
  ∃ k, mapM f l = Ok k ∧ Forall2 P l k.
Proof.
  induction l as [|x l IH]; intros Hf.
  - exists []. split; [reflexivity|constructor].
  - destruct (Hf x) as (y & Ey & Hy); [by left|].
    destruct IH as (k & Ek & Hk); [intros z Hz; apply Hf; by right|].
    exists (y :: k). split; [|by constructor].
    rewrite mapM_cons, Ey. simpl. rewrite Ek. reflexivity.
Qed.

Lemma mapM_Throw_head f x l e : f x = Throw e → mapM f (x :: l) = Throw e.
Proof. intros E. rewrite mapM_cons, E. reflexivity. Qed.

(** When [e] is the only exception [f] raises on [l] and it is raised
    somewhere, the traversal ends with [e]. *)
Lemma mapM_Throw f l e :
  (∀ x, x ∈ l → f x = Throw e ∨ ∃ y, f x = Ok y) →
  (∃ x, x ∈ l ∧ f x = Throw e) →
  mapM f l = Throw e.
Proof.
  induction l as [|x l IH]; intros Hall (x0 & Hin & Hx0).
  - by apply elem_of_nil in Hin.
  - rewrite mapM_cons. destruct (Hall x) as [E|[y E]]; [by left| |]; rewrite E.
    + reflexivity.
    + simpl. rewrite IH; [reflexivity| |].
      * intros z Hz. apply Hall. by right.
      * apply elem_of_cons in Hin as [->|Hin]; [congruence|]. eauto.
Qed.

End Monad.

Lemma foldM_cons {S A : Type} (step : S → A → result S) (s : S) (x : A) (l : list A) :
  foldM step s (x :: l) = s' ← step s x; foldM step s' l.
Proof. reflexivity. Qed.

Lemma foldM_app {S A : Type} (step : S → A → result S) (s : S) (l1 l2 : list A) :
  foldM step s (l1 ++ l2) = s' ← foldM step s l1; foldM step s' l2.
Proof.
  revert s. induction l1 as [|x l1 IH]; intros s; [reflexivity|].
  simpl. destruct (step s x) as [s'|e]; simpl; [apply IH|reflexivity].
Qed.

Lemma foldM_Throw_at {S A : Type} (step : S → A → result S) (s : S)
    (l1 l2 : list A) (x : A) (e : exn) :
  (∀ s' y, y ∈ l1 → step s' y = Throw e ∨ ∃ s'', step s' y = Ok s'') →
  (∀ s', step s' x = Throw e) →
  foldM step s (l1 ++ x :: l2) = Throw e.
Proof.
  revert s. induction l1 as [|y l1 IH]; intros s Hall Hx; simpl.
  - rewrite Hx. reflexivity.
  - destruct (Hall s y) as [E|[s'' E]]; [by left| |]; rewrite E; simpl.
    + reflexivity.
    + apply IH; [|exact Hx]. intros s' z Hz. apply Hall. by right.
Qed.

(** ** Validation *)

Lemma collectionOf_app {num A : Type} (l1 l2 : list (Feature num A)) type name :
  collectionOf (l1 ++ l2) type name
  = _ ← collectionOf l1 type name; collectionOf l2 type name.
Proof.
  induction l1 as [|f l1 IH]; [reflexivity|]. simpl.
  destruct (String.eqb _ _); [exact IH|reflexivity].
Qed.

Lemma collectionOf_remove {num A : Type} (l1 l2 : list (Feature num A))
    (p : Feature num A) (c : list num) name :
  geometry p = Point c →
  collectionOf (l1 ++ p :: l2) "Point" name = collectionOf (l1 ++ l2) "Point" name.
Proof.
  intros Hp. rewrite !collectionOf_app. simpl. rewrite Hp. reflexivity.
Qed.

(** ** Properties that hold in any arithmetic *)

Section Generic.
Context {num : Type} `{Number num}.
Implicit Types (h : Host num) (options : Options num).
Implicit Types (p point : Sample num) (gridFeature : Cell num).
Local Open Scope js_scope.

Lemma zValueOf_cases (property : string) p :
  (∃ z, zValueOf property p = Ok z)
  ∨ zValueOf property p = Throw (Error "zValue is missing").
Proof.
  unfold zValueOf. destruct (properties p !! property); [eauto|].
  destruct (geometry p) as [c| |]; auto. destruct (c !! 2%nat); eauto.
Qed.

Lemma zValueOf_missing (property : string) p :
  properties p !! property = None →
  (∀ c, geometry p = Point c → c !! 2%nat = None) →
  zValueOf property p = Throw (Error "zValue is missing").
Proof.
  intros Hp Hc. unfold zValueOf. rewrite Hp.
  destruct (geometry p) as [c| |]; auto. rewrite (Hc c eq_refl). reflexivity.
Qed.

(** *** The filter of [interpolate2] *)

Lemma accumulateStep2_skip h options gridFeature acc p z :
  zValueOf (propertyName options) p = Ok z →
  passes options z = false →
  accumulateStep2 h options gridFeature acc p = Ok acc.
Proof.
  intros Hz Hf. unfold accumulateStep2. destruct acc as [zw sw].
  rewrite Hz. simpl. rewrite Hf. reflexivity.
Qed.

Lemma accumulate2_remove h options gridFeature (pre post : list (Sample num)) p z :
  zValueOf (propertyName options) p = Ok z →
  passes options z = false →
  accumulate2 h options (pre ++ p :: post) gridFeature
  = accumulate2 h options (pre ++ post) gridFeature.
Proof.
  intros Hz Hf. unfold accumulate2. rewrite !foldM_app.
  destruct (foldM _ _ pre) as [acc|e]; [|reflexivity].
  simpl. rewrite (accumulateStep2_skip _ _ _ _ _ _ Hz Hf). reflexivity.
Qed.

Lemma interpolate2_remove h options grid (pre post : list (Sample num)) p c z :
  geometry p = Point c →
  zValueOf (propertyName options) p = Ok z →
  passes options z = false →
  interpolate2 h (Some (featureCollection (pre ++ p :: post))) grid options
  = interpolate2 h (Some (featureCollection (pre ++ post))) grid options.
Proof.
  intros Hp Hz Hf. unfold interpolate2. simpl.
  rewrite (collectionOf_remove _ _ _ _ _ Hp).
  destruct (collectionOf _ _ _); [|reflexivity]. simpl.
  erewrite mapM_ext_in; [reflexivity|].
  intros g _. simpl. rewrite (accumulate2_remove _ _ _ _ _ _ _ Hz Hf). reflexivity.
Qed.

Lemma accumulate2_all_filtered h options gridFeature (points : list (Sample num)) acc :
  (∀ p, p ∈ points →
        ∃ z, zValueOf (propertyName options) p = Ok z ∧ passes options z = false) →
  foldM (accumulateStep2 h options gridFeature) acc points = Ok acc.
Proof.
  induction points as [|p points IH]; intros Hall; [reflexivity|]. simpl.
  destruct (Hall p) as (z & Hz & Hf); [by left|].
  rewrite (accumulateStep2_skip _ _ _ _ _ _ Hz Hf). simpl.
  apply IH. intros q Hq. apply Hall. by right.
Qed.

(** *** A sample without a value *)

Lemma accumulateStep_cases h options gridFeature acc p :
  (∃ d, distance h (gridPointOf h (gridTypeName options) gridFeature)
                 (geometry p) options = Ok d) →
  accumulateStep h options gridFeature acc p = Throw (Error "zValue is missing")
  ∨ ∃ acc', accumulateStep h options gridFeature acc p = Ok acc'.
Proof.
  intros [d Hd]. unfold accumulateStep. destruct acc as [zw sw]. rewrite Hd. simpl.
  destruct (zValueOf_cases (propertyName options) p) as [[z ->]| ->]; simpl; eauto.
Qed.

Lemma accumulateStep2_cases h options gridFeature acc p :
  (∃ d, distance h (gridPointOf h (gridTypeName options) gridFeature)
                 (geometry p) options = Ok d) →
  accumulateStep2 h options gridFeature acc p = Throw (Error "zValue is missing")
  ∨ ∃ acc', accumulateStep2 h options gridFeature acc p = Ok acc'.
Proof.
  intros [d Hd]. unfold accumulateStep2. destruct acc as [zw sw].
  destruct (zValueOf_cases (propertyName options) p) as [[z ->]| ->]; simpl; eauto.
  destruct (passes options z); eauto. rewrite Hd. simpl. eauto.
Qed.

Lemma accumulate_missing h options gridFeature (points : list (Sample num)) p :
  p ∈ points →
  zValueOf (propertyName options) p = Throw (Error "zValue is missing") →
  distanceReturns h options [gridFeature] points →
  accumulate h options points gridFeature = Throw (Error "zValue is missing").
Proof.
  intros Hin Hz Hd. apply list_elem_of_split in Hin as (l1 & l2 & ->).
  unfold accumulate. apply foldM_Throw_at.
  - intros acc q Hq. apply accumulateStep_cases, Hd; [by left|].
    apply elem_of_app. by left.
  - intros [zw sw]. unfold accumulateStep.
    destruct (Hd gridFeature p) as [d ->]; [by left| |].
    + apply elem_of_app. right. by left.
    + simpl. rewrite Hz. reflexivity.
Qed.

Lemma accumulate2_missing h options gridFeature (points : list (Sample num)) p :
  p ∈ points →
  zValueOf (propertyName options) p = Throw (Error "zValue is missing") →
  distanceReturns h options [gridFeature] points →
  accumulate2 h options points gridFeature = Throw (Error "zValue is missing").
Proof.
  intros Hin Hz Hd. apply list_elem_of_split in Hin as (l1 & l2 & ->).
  unfold accumulate2. apply foldM_Throw_at.
  - intros acc q Hq. apply accumulateStep2_cases, Hd; [by left|].
    apply elem_of_app. by left.
  - intros [zw sw]. unfold accumulateStep2. rewrite Hz. reflexivity.
Qed.

(** The run of [interpolate] once the validation has passed and the grid
    is built. *)
Lemma interpolate_cells h options (points : FeatureCollection num num)
    (cellSize : num) (box : list num) (grid : FeatureCollection num (value num)) :
  collectionOf (features points) "Point" "input must contain Points" = Ok tt →
  truthy cellSize = true →
  bbox h (Some points) = Ok box →
  buildGrid h box cellSize options = Ok grid →
  interpolate h (Some points) (Some cellSize) options
  = (results ← mapM (λ gridFeature,
                       acc ← accumulate h options (features points) gridFeature;
                       finish options gridFeature acc)
                    (features grid);
     Ok (featureCollection results)).
Proof.
  intros Hcol Hcs Hbox Hgrid. unfold interpolate.
  rewrite Hcol. simpl. rewrite Hcs. simpl. rewrite Hbox. simpl. rewrite Hgrid.
  reflexivity.
Qed.

Lemma distanceReturns_head h options g (grid : list (Cell num)) points :
  distanceReturns h options (g :: grid) points →
  distanceReturns h options [g] points.
Proof.
  intros Hd g' q Hg Hq. apply Hd; [|exact Hq].
  apply list_elem_of_singleton in Hg as ->. by left.
Qed.

End Generic.

Section Claims.
Context {num : Type} `{Number num}.
Implicit Types (h : Host num) (options : Options num).
Implicit Types (p point : Sample num) (gridFeature : Cell num).
Local Open Scope js_scope.

(** C5 (as amended).  A sample that has neither the attribute named by
    [property] nor a third coordinate makes both entry points throw
    [Error "zValue is missing"], and no collection is returned, as soon as
    the call gets to a grid cell: the input passes the validation at the
    top of the function, the grid has a cell, and [distance] returns on
    the pairs of a cell and a sample. *)
Theorem missing_value_raises h options (points : FeatureCollection num num) p :
  p ∈ features points →
  properties p !! propertyName options = None →
  (∀ c, geometry p = Point c → c !! 2%nat = None) →
  collectionOf (features points) "Point" "input must contain Points" = Ok tt →
  (∀ cellSize box grid,
      truthy cellSize = true →
      bbox h (Some points) = Ok box →
      buildGrid h box cellSize options = Ok grid →
      features grid ≠ [] →
      distanceReturns h options (features grid) (features points) →
      interpolate h (Some points) (Some cellSize) options
      = Throw (Error "zValue is missing"))
  ∧ (∀ grid,
      features grid ≠ [] →
      distanceReturns h options (features grid) (features points) →
      interpolate2 h (Some points) grid options
      = Throw (Error "zValue is missing")).
Proof.
  intros Hin Hprop Hcoord Hcol.
  pose proof (zValueOf_missing _ _ Hprop Hcoord) as Hz.
  split.
  - intros cellSize box grid Hcs Hbox Hgrid Hne Hd.
    unfold interpolate. rewrite Hcol. simpl. rewrite Hcs. simpl.
    rewrite Hbox. simpl. rewrite Hgrid. simpl.
    destruct (features grid) as [|g gs] eqn:Eg; [done|].
    rewrite (mapM_Throw_head _ _ _ (Error "zValue is missing")); [reflexivity|].
    rewrite (accumulate_missing _ _ _ _ _ Hin Hz); [reflexivity|].
    eapply distanceReturns_head, Hd.
  - intros grid Hne Hd.
    unfold interpolate2. rewrite Hcol. simpl.
    destruct (features grid) as [|g gs] eqn:Eg; [done|].
    rewrite (mapM_Throw_head _ _ _ (Error "zValue is missing")); [reflexivity|].
    rewrite (accumulate2_missing _ _ _ _ _ Hin Hz); [reflexivity|].
    eapply distanceReturns_head, Hd.
Qed.

(** C6.  The bucket rule of [interpolate] and the ['tem'] scheme of
    [interpolate2] are the same function of the interpolated value:
    [15 - ceil(|v| / 2)] when [v < 0] and [ceil(v / 2) + 14] otherwise.
    So, on a property named ['tem'], the two functions finish a cell alike
    whenever [interpolate] finds the bucket in the table. *)
Theorem tem_scheme_agrees (v : num) :
  orderOf v = orderOf2 "tem" v
  ∧ ((v <? lit 0) = true →
       orderOf v = lit 15 - Math_ceil (Math_abs v / lit 2)
       ∧ orderOf2 "tem" v = lit 15 - Math_ceil (Math_abs v / lit 2))
  ∧ ((v <? lit 0) = false →
       orderOf v = Math_ceil (v / lit 2) + lit 14
       ∧ orderOf2 "tem" v = Math_ceil (v / lit 2) + lit 14)
  ∧ (∀ options gridFeature zw sw r,
       propertyName options = "tem" →
       ndiv zw sw = v →
       finish options gridFeature (zw, sw) = Ok r →
       finish2 options gridFeature (zw, sw) = Ok r).
Proof.
  assert (E : orderOf v = orderOf2 "tem" v) by reflexivity.
  split; [exact E|]. split; [|split].
  - intros Hlt. rewrite <- E. unfold orderOf. rewrite Hlt. done.
  - intros Hlt. rewrite <- E. unfold orderOf. rewrite Hlt. done.
  - intros options gridFeature zw sw r Hp Hv. unfold finish, finish2.
    rewrite Hp, Hv, <- E. unfold paint, paint2.
    destruct (breakProperties options) as [table|]; [|done].
    destruct (tableGet table (orderOf v)); done.
Qed.

(** C7.  With a bucket table in the options and the sums of every cell
    computed without an exception: [interpolate2] returns a collection, and
    a cell whose bucket index has no entry in the table comes back with its
    geometry, with the interpolated value under the property name and with
    every other attribute as it was on the grid cell, the colour key among
    them (no colour is assigned); whereas [interpolate] ends with the
    [TypeError] of reading [fillcolor] from [undefined] as soon as one
    cell's bucket index has no entry. *)
Theorem bucket_miss h options table (points : FeatureCollection num num) :
  breakProperties options = Some table →
  collectionOf (features points) "Point" "input must contain Points" = Ok tt →
  (∀ grid,
      (∀ g, g ∈ features grid →
            ∃ acc, accumulate2 h options (features points) g = Ok acc) →
      ∃ results,
        interpolate2 h (Some points) grid options = Ok (featureCollection results)
        ∧ Forall2 (λ g r, ∀ zw sw,
                     accumulate2 h options (features points) g = Ok (zw, sw) →
                     tableGet table (orderOf2 (propertyName options) (zw / sw)) = None →
                     r = setProperty g (propertyName options) (VNum (zw / sw))
                     ∧ geometry r = geometry g
                     ∧ properties r !! propertyName options = Some (VNum (zw / sw))
                     ∧ (∀ key, key ≠ propertyName options →
                               properties r !! key = properties g !! key))
                  (features grid) results)
  ∧ (∀ cellSize box grid g zw sw,
      truthy cellSize = true →
      bbox h (Some points) = Ok box →
      buildGrid h box cellSize options = Ok grid →
      (∀ g, g ∈ features grid →
            ∃ acc, accumulate h options (features points) g = Ok acc) →
      g ∈ features grid →
      accumulate h options (features points) g = Ok (zw, sw) →
      tableGet table (orderOf (zw / sw)) = None →
      interpolate h (Some points) (Some cellSize) options = Throw TypeError).
Proof.
  intros Htable Hcol. split.
  - intros grid Hacc. unfold interpolate2. rewrite Hcol. simpl.
    destruct (mapM_Ok_exists
                (λ gridFeature : Cell num,
                   acc ← accumulate2 h options (features points) gridFeature;
                   finish2 options gridFeature acc)
                (λ g r, ∀ zw sw,
                   accumulate2 h options (features points) g = Ok (zw, sw) →
                   tableGet table (orderOf2 (propertyName options) (zw / sw)) = None →
                   r = setProperty g (propertyName options) (VNum (zw / sw))
                   ∧ geometry r = geometry g
                   ∧ properties r !! propertyName options = Some (VNum (zw / sw))
                   ∧ (∀ key, key ≠ propertyName options →
                             properties r !! key = properties g !! key))
                (features grid)) as (results & Er & Hr).
    { intros g Hg. destruct (Hacc g Hg) as [[zw sw] Ea]. rewrite Ea. simpl.
      unfold paint2. rewrite Htable.
      destruct (tableGet table _) as [b|] eqn:Et; eexists; (split; [reflexivity|]);
        intros zw' sw' [= <- <-] Et'; [congruence|].
      split; [reflexivity|]. split; [reflexivity|]. split.
      - apply lookup_insert_eq.
      - intros key Hkey. apply lookup_insert_ne. congruence. }
    exists results. rewrite Er. split; [reflexivity|exact Hr].
  - intros cellSize box grid g zw sw Hcs Hbox Hgrid Hacc Hg Ea Et.
    unfold interpolate. rewrite Hcol. simpl. rewrite Hcs. simpl.
    rewrite Hbox. simpl. rewrite Hgrid. simpl.
    rewrite (mapM_Throw _ _ TypeError); [reflexivity| |].
    + intros g' Hg'. destruct (Hacc g' Hg') as [[zw' sw'] Ea']. rewrite Ea'. simpl.
      unfold paint. rewrite Htable.
      destruct (tableGet table (orderOf (zw' / sw')));
        [right; eexists; reflexivity|left; reflexivity].
    + exists g. split; [exact Hg|]. rewrite Ea. simpl.
      unfold paint. rewrite Htable, Et. reflexivity.
Qed.

(** C8 (as amended).  [genSquareGrid] checks nothing itself: it returns a
    grid exactly when [bbox] returns a box on which [squareGrid] returns
    that grid, and it throws exactly what the first of the two to throw
    throws, for an empty or absent collection as for any other. *)
Theorem genSquareGrid_delegates h (points : option (FeatureCollection num num))
    (cellSize : option num) options :
  (∀ grid, genSquareGrid h points cellSize options = Ok grid
           ↔ ∃ box, bbox h points = Ok box
                    ∧ squareGrid h box cellSize options = Ok grid)
  ∧ (∀ e, genSquareGrid h points cellSize options = Throw e
          ↔ bbox h points = Throw e
            ∨ ∃ box, bbox h points = Ok box
                     ∧ squareGrid h box cellSize options = Throw e).
Proof.
  unfold genSquareGrid. destruct (bbox h points) as [box|e0]; simpl; split.
  - intros grid. split; [eauto|]. by intros (box' & [= <-] & E).
  - intros e. split; [eauto|]. by intros [?|(box' & [= <-] & E)].
  - intros grid. split; [done|]. by intros (box' & ? & _).
  - intros e. split; [intros [= ->]; by left|]. intros [[= ->]|(box' & ? & _)]; done.
Qed.

(** X2.  Under a property name that is none of the five schemes, [order]
    keeps its initial value 0, whatever the interpolated value is. *)
Theorem other_property_is_bucket_0 (property : string) (v : num) :
  property ≠ "tem" → property ≠ "prs" → property ≠ "rhu" →
  property ≠ "winSMax" → property ≠ "pre1h" →
  orderOf2 property v = lit 0.
Proof.
  intros H1 H2 H3 H4 H5. unfold orderOf2.
  apply String.eqb_neq in H1, H2, H3, H4, H5.
  rewrite H1, H2, H3, H4, H5. reflexivity.
Qed.

End Claims.

(** ** binary64: the program as it runs *)

Section Binary64.
Local Open Scope float_scope.

Lemma SFcompare_swap (x y : spec_float) :
  SFcompare y x = option_map CompOpp (SFcompare x y).
Proof.
  destruct x as [sx|sx| |sx mx ex], y as [sy|sy| |sy my ey]; simpl;
    try reflexivity;
    try (destruct sx; reflexivity); try (destruct sy; reflexivity);
    try (destruct sx, sy; reflexivity).
  destruct sx, sy; simpl; try reflexivity;
    rewrite (Z.compare_antisym ex ey);
    destruct (ex ?= ey)%Z eqn:E; simpl; try reflexivity;
    change (Pos.compare_cont Eq my mx) with (my ?= mx)%positive;
    change (Pos.compare_cont Eq mx my) with (mx ?= my)%positive;
    rewrite (Pos.compare_antisym mx my); reflexivity.
Qed.

(** [t <= a] excludes [a < t]. *)
Lemma leb_ltb_false (t a : float) : (t <=? a) = true → (a <? t) = false.
Proof.
  rewrite leb_spec, ltb_spec. unfold SFleb, SFltb.
  rewrite (SFcompare_swap (Prim2SF t) (Prim2SF a)).
  destruct (SFcompare (Prim2SF t) (Prim2SF a)) as [[]|]; simpl; congruence.
Qed.

(** The range of the wind-speed ladder, in any arithmetic. *)
Lemma winSMax_range {num : Type} `{Number num} (v : num) :
  In (orderOf2 "winSMax" v)
     (map lit [0; 1; 3; 4; 5; 6; 7; 8; 9; 10; 11; 12; 13; 14; 15; 16]).
Proof.
  unfold orderOf2. simpl String.eqb. cbv iota.
  destruct (nle v (lit 2.5)); [simpl; tauto|].
  destruct (nle v (lit 5.5)); [simpl; tauto|].
  repeat match goal with
         | |- context [if nle v ?c then _ else _] =>
             destruct (nle v c); [simpl; tauto|]
         end.
  simpl; tauto.
Qed.

(** [Math.ceil] and the index of a key, on values of each kind. *)
Example ceil64_values :
  map ceil64 [2.5; -2.5; -0.5; 0.3; 10; 0; -7; 4503599627370495.5;
              infinity; neg_infinity; nan]
  = [3; -2; -0; 1; 10; 0; -7; 4503599627370496; infinity; neg_infinity; nan].
Proof. vm_compute. reflexivity. Qed.

Example index64_values :
  map index64 [0; -0; 19; 2.5; -1; nan; infinity]
  = [Some 0%Z; Some 0%Z; Some 19%Z; None; None; None; None].
Proof. vm_compute. reflexivity. Qed.

(** C10.  Under ['winSMax'] no value is put in bucket 2: the branch
    [v <= 5.5] that assigns it repeats the test before it.  The buckets
    the scheme does produce are 0, 1 and 3 to 16, each for some value. *)
Theorem winSMax_never_2 :
  (∀ v : float,
      In (orderOf2 "winSMax" v)
         [0; 1; 3; 4; 5; 6; 7; 8; 9; 10; 11; 12; 13; 14; 15; 16]
      ∧ (orderOf2 "winSMax" v =? 2) = false
      ∧ orderOf2 "winSMax" v ≠ 2)
  ∧ (∀ k : float,
      In k [0; 1; 3; 4; 5; 6; 7; 8; 9; 10; 11; 12; 13; 14; 15; 16] →
      ∃ v : float, orderOf2 "winSMax" v = k).
Proof.
  split.
  - intros v. pose proof (winSMax_range v) as Hin.
    split; [exact Hin|].
    simpl in Hin.
    repeat destruct Hin as [<-|Hin]; try (split; [reflexivity|]);
      try (intros E; apply (f_equal (λ x, x =? 2)) in E; vm_compute in E;
           discriminate);
      try contradiction.
  - intros k Hin. simpl in Hin.
    repeat destruct Hin as [<-|Hin]; try contradiction.
    + exists 0; reflexivity.
    + exists 3; reflexivity.
    + exists 6; reflexivity.
    + exists 9; reflexivity.
    + exists 12; reflexivity.
    + exists 15; reflexivity.
    + exists 18; reflexivity.
    + exists 22; reflexivity.
    + exists 26; reflexivity.
    + exists 30; reflexivity.
    + exists 35; reflexivity.
    + exists 40; reflexivity.
    + exists 45; reflexivity.
    + exists 50; reflexivity.
    + exists 60; reflexivity.
    + exists 70; reflexivity.
Qed.

(** *** Infinite weights

    Once a sum is infinite or NaN it stays so, and the quotient of two such
    sums is NaN. *)

Definition SFunbounded (x : spec_float) : bool :=
  match x with
  | S754_nan | S754_infinity _ => true
  | _ => false
  end.

Definition unbounded (x : float) : bool := SFunbounded (Prim2SF x).

Lemma add_unbounded_l (x y : float) : unbounded x = true → unbounded (x + y) = true.
Proof.
  unfold unbounded. rewrite add_spec.
  destruct (Prim2SF x) as [sx|sx| |sx mx ex]; try discriminate; intros _;
    destruct (Prim2SF y) as [sy|sy| |sy my ey]; try reflexivity.
  destruct sx, sy; reflexivity.
Qed.

Lemma add_unbounded_r (x y : float) : unbounded y = true → unbounded (x + y) = true.
Proof.
  unfold unbounded. rewrite add_spec.
  destruct (Prim2SF y) as [sy|sy| |sy my ey]; try discriminate; intros _;
    destruct (Prim2SF x) as [sx|sx| |sx mx ex]; try reflexivity.
  destruct sx, sy; reflexivity.
Qed.

Lemma mul_unbounded_l (x y : float) : unbounded x = true → unbounded (x * y) = true.
Proof.
  unfold unbounded. rewrite mul_spec.
  destruct (Prim2SF x) as [sx|sx| |sx mx ex]; try discriminate; intros _;
    destruct (Prim2SF y) as [sy|sy| |sy my ey]; reflexivity.
Qed.

Lemma div_unbounded (x y : float) :
  unbounded x = true → unbounded y = true → x / y = nan.
Proof.
  unfold unbounded. intros Hx Hy.
  transitivity (SF2Prim (Prim2SF (x / y))); [symmetry; apply SF2Prim_Prim2SF|].
  rewrite div_spec.
  destruct (Prim2SF x) as [sx|sx| |sx mx ex]; try discriminate;
    destruct (Prim2SF y) as [sy|sy| |sy my ey]; try discriminate; reflexivity.
Qed.

(** The reciprocal of a zero is an infinity. *)
Lemma reciprocal_of_zero (d : float) : (d =? 0) = true → unbounded (1 / d) = true.
Proof.
  unfold unbounded. rewrite FloatAxioms.eqb_spec, div_spec.
  change (Prim2SF 0) with (S754_zero false).
  change (Prim2SF 1) with (S754_finite false 4503599627370496 (-52)).
  destruct (Prim2SF d) as [sd|sd| |sd md ed]; try discriminate; try reflexivity.
  - destruct sd; discriminate.
  - destruct sd; discriminate.
Qed.

Section Coincidence.
Variables (h : Host float) (options : Options float) (g : Cell float).
Hypothesis weight_at_zero :
  ∀ d, (d =? 0) = true → unbounded (1 / Math_pow h d (exponent options)) = true.

Definition bothUnbounded (acc : float * float) : Prop :=
  unbounded (fst acc) = true ∧ unbounded (snd acc) = true.

Lemma accumulateStep_at_zero (acc acc' : float * float) (p : Sample float) (d : float) :
  distance h (gridPointOf h (gridTypeName options) g) (geometry p) options = Ok d →
  (d =? 0) = true →
  accumulateStep h options g acc p = Ok acc' →
  bothUnbounded acc'.
Proof.
  intros Hd Hz. unfold accumulateStep. destruct acc as [zw sw]. rewrite Hd. simpl.
  destruct (zValueOf (propertyName options) p) as [z|e]; [|discriminate]. simpl.
  intros [= <-]. pose proof (weight_at_zero d Hz) as Hw. split; simpl.
  - apply add_unbounded_r, mul_unbounded_l, Hw.
  - apply add_unbounded_r, Hw.
Qed.

Lemma accumulateStep_unbounded (acc acc' : float * float) (p : Sample float) :
  bothUnbounded acc →
  accumulateStep h options g acc p = Ok acc' →
  bothUnbounded acc'.
Proof.
  intros [Hzw Hsw]. unfold accumulateStep. destruct acc as [zw sw]. simpl in Hzw, Hsw.
  destruct (distance h _ _ _) as [d|e] eqn:Hd; [|discriminate]. simpl.
  destruct (zValueOf (propertyName options) p) as [z|e]; [|discriminate]. simpl.
  intros [= <-]. split; simpl.
  - destruct (d =? 0) eqn:Hz.
    + apply add_unbounded_r, mul_unbounded_l, weight_at_zero, Hz.
    + apply add_unbounded_l, Hzw.
  - apply add_unbounded_l, Hsw.
Qed.

Lemma foldM_unbounded (points : list (Sample float)) (acc acc' : float * float) :
  bothUnbounded acc →
  foldM (accumulateStep h options g) acc points = Ok acc' →
  bothUnbounded acc'.
Proof.
  revert acc. induction points as [|p points IH]; intros acc Hacc.
  - intros [= <-]. exact Hacc.
  - rewrite foldM_cons.
    destruct (accumulateStep h options g acc p) as [acc1|e] eqn:E; [|discriminate].
    apply IH. exact (accumulateStep_unbounded acc acc1 p Hacc E).
Qed.

(** X1 (C4 in general).  If the weight [1 / Math.pow(d, weight)] of a distance
    [d === 0] is infinite, as it is for a positive exponent, then a cell
    with a sample at distance 0 gets infinite or NaN sums and the value
    NaN, whatever the values and the other samples are. *)
Theorem coincidence_is_nan (points : list (Sample float)) (p : Sample float)
    (d zw sw : float) :
  p ∈ points →
  distance h (gridPointOf h (gridTypeName options) g) (geometry p) options = Ok d →
  (d =? 0) = true →
  accumulate h options points g = Ok (zw, sw) →
  unbounded zw = true ∧ unbounded sw = true ∧ zw / sw = nan.
Proof.
  intros Hin Hd Hz. apply list_elem_of_split in Hin as (pre & post & ->).
  unfold accumulate. rewrite foldM_app.
  destruct (foldM _ _ pre) as [acc0|e]; [|discriminate].
  change (Ok acc0 ≫= _) with (foldM (accumulateStep h options g) acc0 (p :: post)).
  rewrite foldM_cons.
  destruct (accumulateStep h options g acc0 p) as [acc1|e] eqn:E; [|discriminate].
  intros Hpost.
  destruct (foldM_unbounded post acc1 (zw, sw)
              (accumulateStep_at_zero acc0 acc1 p d Hd Hz E) Hpost) as [Hzw Hsw].
  simpl in Hzw, Hsw. split; [exact Hzw|]. split; [exact Hsw|].
  apply div_unbounded; assumption.
Qed.

End Coincidence.

(** C2.  In [interpolate2] a sample whose value [z] has [valid <= |z|]
    adds nothing to the sums of any cell, and the result on the collection
    with the sample is the result on the collection without it. *)
Theorem filtered_sample_removed (h : Host float) (options : Options float)
    (grid : FeatureCollection float (value float))
    (pre post : list (Sample float)) (p : Sample float) (c : list float)
    (z t : float) :
  geometry p = Point c →
  zValueOf (propertyName options) p = Ok z →
  valid options = Some t →
  (t <=? Math_abs z) = true →
  (∀ g, accumulate2 h options (pre ++ p :: post) g
        = accumulate2 h options (pre ++ post) g)
  ∧ interpolate2 h (Some (featureCollection (pre ++ p :: post))) grid options
    = interpolate2 h (Some (featureCollection (pre ++ post))) grid options.
Proof.
  intros Hp Hz Hv Hle.
  assert (Hf : passes options z = false).
  { unfold passes. rewrite Hv. apply leb_ltb_false, Hle. }
  split.
  - intros g. exact (accumulate2_remove h options g pre post p z Hz Hf).
  - exact (interpolate2_remove h options grid pre post p c z Hp Hz Hf).
Qed.


End Binary64.

(** ** The program on concrete inputs *)

Section Runs.
Local Open Scope float_scope.


(** C3.  The literal edge values under the named schemes.  All but one
    fall in the bucket the scheme's description gives; 969 under ['prs']
    is neither below 969 nor above 1017 and gets
    [ceil((969 - 969) / 3) - 1 = -1], which is no index of the table, so
    the cell is left without a colour. *)
Theorem scheme_edges :
  orderOf2 "prs" 969 = (-1)
  ∧ orderOf2 "prs" 1017.1 = 16
  ∧ orderOf2 "rhu" 100 = 9
  ∧ orderOf2 "rhu" 100.1 = 9
  ∧ orderOf2 "pre1h" 0.2 = 0
  ∧ orderOf2 "pre1h" 50.1 = 8
  ∧ tableGet palette (-1) = None
  ∧ interpolate2 planar64 (Some pressure969) originGrid (onProperty "prs" 5000)
    = Ok (featureCollection
            [mkFeature (Point [0; 0]) (<["prs" := VNum 969]> ∅)]).
Proof. repeat split; vm_compute; reflexivity. Qed.

(** C4.  A sample at the position of a cell, another at distance 2: the
    assignment [zw = zValue] is followed by the weight [1 / 0], both sums
    become infinite and the value written is NaN, not the sample's 5.
    NaN has no bucket, so [interpolate] ends with a [TypeError];
    [interpolate2] returns the cell with NaN in it. *)
Theorem coincident_sample_gives_nan :
  distance planar64 (geometry originCell) (Point [0; 0]) onPoints = Ok 0
  ∧ distance planar64 (geometry originCell) (Point [2; 0]) onPoints = Ok 2
  ∧ buildGrid planar64 [0; 0; 2; 0] 4 onPoints = Ok originGrid
  ∧ accumulate planar64 onPoints (features atOrigin) originCell
    = Ok (infinity, infinity)
  ∧ infinity / infinity = nan
  ∧ tableGet palette (orderOf nan) = None
  ∧ interpolate planar64 (Some atOrigin) (Some 4) onPoints = Throw TypeError
  ∧ interpolate2 planar64 (Some atOrigin) originGrid (onProperty "elevation" 5000)
    = Ok (featureCollection
            [mkFeature (Point [0; 0])
               (<["color" := VStr "c00"]> (<["elevation" := VNum nan]> ∅))]).
Proof. repeat split; vm_compute; reflexivity. Qed.

(** C5, counterexample.  The second sample has neither ['elevation'] nor a
    third coordinate, yet [interpolate2] on a grid without cells returns
    the empty collection, and [interpolate] called with a cell size of 0
    throws the error of the cell size. *)
Lemma missing_value_not_raised :
  (∃ p, p ∈ features oneMissing
        ∧ properties p !! propertyName onPoints = None
        ∧ geometry p = Point [2; 0])
  ∧ interpolate2 planar64 (Some oneMissing) (featureCollection []) onPoints
    = Ok (featureCollection [])
  ∧ interpolate planar64 (Some oneMissing) (Some 0) onPoints
    = Throw (Error "cellSize is required").
Proof.
  split; [|split; vm_compute; reflexivity].
  exists (pointAt 2 0 {[ "station" := 17 ]}).
  split; [right; left|split; vm_compute; reflexivity].
Qed.

(** C8, counterexample.  On the planar host the box of an empty collection
    is the inverted infinite box, on which no cell fits: [genSquareGrid]
    returns a grid, the empty one. *)
Lemma genSquareGrid_of_nothing :
  bbox planar64 (Some (featureCollection []))
  = Ok [infinity; infinity; neg_infinity; neg_infinity]
  ∧ genSquareGrid planar64 (Some (featureCollection [])) (Some 1) onPoints
    = Ok (featureCollection []).
Proof. split; vm_compute; reflexivity. Qed.


(** Membership in a list written out. *)
Ltac each_member Hin :=
  apply list_elem_of_In in Hin; vm_compute in Hin;
  repeat (destruct Hin as [<-|Hin]); [..|destruct Hin].

Lemma filtered_sample_removed_witness :
  (∀ g, accumulate2 planar64 (onProperty "tem" 1000) ([reading] ++ sentinel :: []) g
        = accumulate2 planar64 (onProperty "tem" 1000) ([reading] ++ []) g)
  ∧ interpolate2 planar64 (Some (featureCollection ([reading] ++ sentinel :: [])))
                 originGrid (onProperty "tem" 1000)
    = interpolate2 planar64 (Some (featureCollection ([reading] ++ [])))
                   originGrid (onProperty "tem" 1000).
Proof.
  apply (filtered_sample_removed planar64 (onProperty "tem" 1000) originGrid
           [reading] [] sentinel [1; 0] 9999 1000);
    vm_compute; reflexivity.
Defined.


Lemma missing_value_raises_witness :
  interpolate planar64 (Some oneMissing) (Some 4) onPoints
  = Throw (Error "zValue is missing")
  ∧ interpolate2 planar64 (Some oneMissing) originGrid onPoints
    = Throw (Error "zValue is missing").
Proof.
  destruct (missing_value_raises planar64 onPoints oneMissing
              (pointAt 2 0 {[ "station" := 17 ]})) as [H1 H2].
  - right; left.
  - vm_compute; reflexivity.
  - intros c [= <-]. reflexivity.
  - vm_compute; reflexivity.
  - split.
    + apply (H1 4 [0; 0; 2; 1] originGrid); try (vm_compute; reflexivity).
      * vm_compute. discriminate.
      * intros g q Hg Hq. each_member Hg; each_member Hq;
          eexists; vm_compute; reflexivity.
    + apply (H2 originGrid).
      * vm_compute. discriminate.
      * intros g q Hg Hq. each_member Hg; each_member Hq;
          eexists; vm_compute; reflexivity.
Defined.

Lemma coincidence_is_nan_witness :
  unbounded infinity = true ∧ unbounded infinity = true ∧ infinity / infinity = nan.
Proof.
  apply (coincidence_is_nan planar64 onPoints originCell) with
    (points := features atOrigin) (p := pointAt 0 0 {[ "elevation" := 5 ]}) (d := 0).
  - intros d Hd.
    change (Math_pow planar64 d (exponent onPoints)) with d.
    apply reciprocal_of_zero, Hd.
  - left.
  - vm_compute; reflexivity.
  - reflexivity.
  - vm_compute; reflexivity.
Defined.

Lemma other_property_is_bucket_0_witness :
  orderOf2 "elevation" 12.5 = 0.
Proof.
  change (orderOf2 "elevation" 12.5 = lit 0).
  apply (other_property_is_bucket_0 "elevation" 12.5); discriminate.
Defined.

Lemma bucket_miss_witness :
  (∃ results,
      interpolate2 planar64 (Some pressure969) originGrid (onProperty "prs" 5000)
      = Ok (featureCollection results)
      ∧ Forall2 (λ g r, r = setProperty g "prs" (VNum 969)
                        ∧ geometry r = Point [0; 0]
                        ∧ properties r !! "prs" = Some (VNum 969)
                        ∧ properties r !! "color" = None)
                [originCell] results)
  ∧ interpolate planar64 (Some pressure969) (Some 4) (onProperty "prs" 5000)
    = Throw TypeError.
Proof.
  destruct (bucket_miss planar64 (onProperty "prs" 5000) palette pressure969)
    as [H1 H2]; [reflexivity|vm_compute; reflexivity|].
  split.
  - destruct (H1 originGrid) as (results & E & Hr).
    + intros g Hg. each_member Hg. eexists. vm_compute. reflexivity.
    + exists results. split; [exact E|].
      inversion Hr as [|g r gs rs Hgr Hrs]; subst.
      inversion Hrs; subst. constructor; [|constructor].
      destruct (Hgr 1453.5 1.5) as (Er & Eg & Ev & Ek);
        [vm_compute; reflexivity|vm_compute; reflexivity|].
      split; [exact Er|]. split; [exact Eg|]. split; [exact Ev|].
      rewrite (Ek "color"); [reflexivity|discriminate].
  - apply (H2 4 [0; 0; 2; 1] originGrid originCell 1453.5 1.5);
      try (vm_compute; reflexivity).
    + intros g Hg. each_member Hg. eexists. vm_compute. reflexivity.
    + left.
Defined.

End Runs.

(** ** binary64: a constant field

    In binary64 the two sums are rounded at every step, and the quotient
    of a constant field need not be the constant.  It is when nothing on
    the way rounds. *)

Section Roundless.

(** [x] is a finite binary64 value, and the number it stands for is [r]. *)
Definition stands (x : float) (r : R) : Prop :=
  unbounded x = false ∧ R_of_float x = r.

(** The result of an operation is finite and is the exact result: the
    operation neither rounds nor overflows. *)
Definition exactSum (x y : float) : Prop :=
  stands (x + y)%float (R_of_float x + R_of_float y)%R.
Definition exactProduct (x y : float) : Prop :=
  stands (x * y)%float (R_of_float x * R_of_float y)%R.
Definition exactQuotient (x y : float) : Prop :=
  stands (x / y)%float (R_of_float x / R_of_float y)%R.

(** The run of lines 87-104 on one cell from the sums [acc]: every sample
    is at a distance that is not 0 and has a value, its weight is a
    positive finite number, and no operation on the way to the value of
    the cell rounds or overflows. *)
Fixpoint roundless (h : Host float) (options : Options float) (g : Cell float)
    (acc : float * float) (points : list (Sample float)) : Prop :=
  match points with
  | [] => exactQuotient (fst acc) (snd acc)
  | p :: points =>
      ∃ d z,
        distance h (gridPointOf h (gridTypeName options) g) (geometry p) options
        = Ok d
        ∧ (d =? 0)%float = false
        ∧ zValueOf (propertyName options) p = Ok z
        ∧ let w := (1 / Math_pow h d (exponent options))%float in
          (0 < R_of_float w)%R
          ∧ exactProduct w z
          ∧ exactSum (snd acc) w
          ∧ exactSum (fst acc) (w * z)%float
          ∧ roundless h options g ((fst acc + w * z)%float, (snd acc + w)%float)
                      points
  end.

Local Open Scope R_scope.

(** *** Two finite values that stand for the same number are [===] *)

Lemma digits2_pos_shift (n : nat) :
  ∀ m1 m2 : positive,
    (Z.pos m1 = Z.pos m2 * 2 ^ Z.of_nat n)%Z →
    (Z.pos (digits2_pos m1) = Z.pos (digits2_pos m2) + Z.of_nat n)%Z.
Proof.
  induction n as [|n IH]; intros m1 m2 E.
  - simpl in E. assert (m1 = m2) as -> by lia. simpl. lia.
  - rewrite Nat2Z.inj_succ, Z.pow_succ_r in E by lia.
    destruct m1 as [m1|m1|]; [lia| |lia].
    assert (E' : (Z.pos m1 = Z.pos m2 * 2 ^ Z.of_nat n)%Z) by lia.
    specialize (IH m1 m2 E'). simpl digits2_pos. lia.
Qed.

Lemma mantissa_shift (m1 m2 : positive) (e1 e2 : Z) :
  (e1 <= e2)%Z →
  IZR (Z.pos m1) * powerRZ 2 e1 = IZR (Z.pos m2) * powerRZ 2 e2 →
  (Z.pos m1 = Z.pos m2 * 2 ^ (e2 - e1))%Z.
Proof.
  intros Hle E.
  assert (H2 : (2 : R) ≠ 0) by lra.
  assert (E' : IZR (Z.pos m1) = IZR (Z.pos m2) * powerRZ 2 (e2 - e1)).
  { replace (e2 - e1)%Z with (e2 + - e1)%Z by lia.
    rewrite powerRZ_add by exact H2. rewrite <- Rmult_assoc, <- E.
    rewrite Rmult_assoc, <- powerRZ_add by exact H2.
    replace (e1 + - e1)%Z with 0%Z by lia. simpl. ring. }
  rewrite <- (Z2Nat.id (e2 - e1)) in E' |- * by lia.
  rewrite <- pow_powerRZ, pow_IZR, <- mult_IZR in E'.
  apply eq_IZR in E'. exact E'.
Qed.

Lemma bounded_unique_le (m1 m2 : positive) (e1 e2 : Z) :
  (e1 <= e2)%Z →
  SpecFloat.bounded prec emax m1 e1 = true →
  SpecFloat.bounded prec emax m2 e2 = true →
  IZR (Z.pos m1) * powerRZ 2 e1 = IZR (Z.pos m2) * powerRZ 2 e2 →
  m1 = m2 ∧ e1 = e2.
Proof.
  intros Hle B1 B2 E.
  pose proof (mantissa_shift m1 m2 e1 e2 Hle E) as Em.
  rewrite <- (Z2Nat.id (e2 - e1)) in Em by lia.
  pose proof (digits2_pos_shift _ m1 m2 Em) as Ed.
  rewrite Z2Nat.id in Ed, Em by lia.
  unfold SpecFloat.bounded, canonical_mantissa in B1, B2.
  apply andb_true_iff in B1 as [B1 _]. apply andb_true_iff in B2 as [B2 _].
  apply Z.eqb_eq in B1, B2.
  assert (He : e1 = e2).
  { rewrite <- B1, <- B2. f_equal. lia. }
  subst e2. split; [|reflexivity].
  rewrite Z.sub_diag in Em. simpl in Em. lia.
Qed.

Lemma bounded_unique (m1 m2 : positive) (e1 e2 : Z) :
  SpecFloat.bounded prec emax m1 e1 = true →
  SpecFloat.bounded prec emax m2 e2 = true →
  IZR (Z.pos m1) * powerRZ 2 e1 = IZR (Z.pos m2) * powerRZ 2 e2 →
  m1 = m2 ∧ e1 = e2.
Proof.
  intros B1 B2 E. destruct (Z.le_ge_cases e1 e2) as [Hle|Hle].
  - exact (bounded_unique_le m1 m2 e1 e2 Hle B1 B2 E).
  - destruct (bounded_unique_le m2 m1 e2 e1 Hle B2 B1 (eq_sym E)) as [-> ->].
    split; reflexivity.
Qed.

Lemma mantissa_pos (m : positive) (e : Z) : 0 < IZR (Z.pos m) * powerRZ 2 e.
Proof.
  apply Rmult_lt_0_compat; [apply IZR_lt; lia|apply powerRZ_lt; lra].
Qed.

Lemma compare_cont_refl (m : positive) : Pos.compare_cont Eq m m = Eq.
Proof. exact (Pos.compare_refl m). Qed.

Lemma same_number (x y : float) :
  unbounded x = false → unbounded y = false →
  R_of_float x = R_of_float y →
  (x =? y)%float = true.
Proof.
  intros Hx Hy E. rewrite FloatAxioms.eqb_spec.
  pose proof (Prim2SF_valid x) as Vx. pose proof (Prim2SF_valid y) as Vy.
  unfold unbounded in Hx, Hy. unfold R_of_float in E.
  destruct (Prim2SF x) as [sx|sx| |sx mx ex], (Prim2SF y) as [sy|sy| |sy my ey];
    try discriminate; try reflexivity.
  - pose proof (mantissa_pos my ey). destruct sy; simpl in E; lra.
  - pose proof (mantissa_pos mx ex). destruct sx; simpl in E; lra.
  - pose proof (mantissa_pos mx ex). pose proof (mantissa_pos my ey).
    simpl in Vx, Vy.
    destruct sx, sy; simpl in E; try lra.
    + destruct (bounded_unique mx my ex ey Vx Vy) as [-> ->]; [lra|].
      unfold SFeqb, SFcompare. rewrite Z.compare_refl, compare_cont_refl. reflexivity.
    + destruct (bounded_unique mx my ex ey Vx Vy) as [-> ->]; [lra|].
      unfold SFeqb, SFcompare. rewrite Z.compare_refl, compare_cont_refl. reflexivity.
Qed.


(** *** The run *)

Lemma mul_unbounded_r (x y : float) :
  unbounded y = true → unbounded (x * y)%float = true.
Proof.
  unfold unbounded. rewrite mul_spec.
  destruct (Prim2SF y) as [sy|sy| |sy my ey]; try discriminate; intros _;
    destruct (Prim2SF x) as [sx|sx| |sx mx ex]; reflexivity.
Qed.

Lemma exactProduct_bounded (w v : float) : exactProduct w v → unbounded v = false.
Proof.
  intros [Hb _]. destruct (unbounded v) eqn:Hv; [|reflexivity].
  rewrite (mul_unbounded_r w v Hv) in Hb. discriminate.
Qed.

Lemma accumulateStep_away (h : Host float) (options : Options float)
    (g : Cell float) (p : Sample float) (zw sw d z : float) :
  distance h (gridPointOf h (gridTypeName options) g) (geometry p) options = Ok d →
  (d =? 0)%float = false →
  zValueOf (propertyName options) p = Ok z →
  accumulateStep h options g (zw, sw) p
  = Ok ((zw + 1 / Math_pow h d (exponent options) * z)%float,
        (sw + 1 / Math_pow h d (exponent options))%float).
Proof.
  intros Hd Hne Hz. unfold accumulateStep. rewrite Hd. simpl. rewrite Hz. simpl.
  rewrite Hne. reflexivity.
Qed.

Lemma roundless_accumulate (h : Host float) (options : Options float)
    (g : Cell float) (v : float) (points : list (Sample float)) :
  (∀ p, p ∈ points → zValueOf (propertyName options) p = Ok v) →
  ∀ zw sw,
    R_of_float zw = R_of_float v * R_of_float sw →
    0 <= R_of_float sw →
    (points = [] → 0 < R_of_float sw) →
    roundless h options g (zw, sw) points →
    ∃ zw' sw',
      foldM (accumulateStep h options g) (zw, sw) points = Ok (zw', sw')
      ∧ stands (zw' / sw')%float (R_of_float v).
Proof.
  induction points as [|p points IH]; intros Hall zw sw Hinv Hsw Hpos Hrun.
  - exists zw, sw. split; [reflexivity|].
    destruct Hrun as [Hb Hq]. simpl in Hb, Hq. split; [exact Hb|].
    rewrite Hq, Hinv. specialize (Hpos eq_refl). field. lra.
  - destruct Hrun as (d & z & Hd & Hne & Hz & Hw & Hprod & Hs & Hzs & Hrest).
    simpl in Hs, Hzs, Hrest.
    assert (z = v) as ->.
    { specialize (Hall p (list_elem_of_here _ _)). congruence. }
    rewrite foldM_cons, (accumulateStep_away h options g p zw sw d v Hd Hne Hz).
    destruct Hprod as [_ Hprod]. destruct Hs as [_ Hs]. destruct Hzs as [_ Hzs].
    apply IH.
    + intros q Hq. apply Hall. by right.
    + rewrite Hzs, Hs, Hprod, Hinv. ring.
    + rewrite Hs. lra.
    + intros _. rewrite Hs. lra.
    + exact Hrest.
Qed.

Lemma roundless_value (h : Host float) (options : Options float)
    (g : Cell float) (v : float) (points : list (Sample float)) :
  points ≠ [] →
  (∀ p, p ∈ points → zValueOf (propertyName options) p = Ok v) →
  roundless h options g (0, 0)%float points →
  ∃ zw sw, accumulate h options points g = Ok (zw, sw)
           ∧ (zw / sw =? v)%float = true.
Proof.
  intros Hne Hall Hrun.
  assert (Hv : unbounded v = false).
  { destruct points as [|p points]; [done|].
    destruct Hrun as (d & z & _ & _ & Hz & _ & Hprod & _).
    specialize (Hall p (list_elem_of_here _ _)).
    assert (z = v) as -> by congruence.
    exact (exactProduct_bounded _ _ Hprod). }
  destruct (roundless_accumulate h options g v points Hall 0%float 0%float)
    as (zw & sw & E & Hb & Hq).
  - change (R_of_float 0) with 0. ring.
  - change (R_of_float 0) with 0. lra.
  - intros ->. done.
  - exact Hrun.
  - exists zw, sw. split; [exact E|]. exact (same_number _ _ Hb Hv Hq).
Qed.

Lemma Forall2_impl_in {A B : Type} (P Q : A → B → Prop) (l : list A) (k : list B) :
  Forall2 P l k → (∀ x y, x ∈ l → P x y → Q x y) → Forall2 Q l k.
Proof.
  induction 1 as [|x y l k Hxy _ IH]; intros Himp; constructor.
  - apply Himp; [by left|exact Hxy].
  - apply IH. intros x' y' Hin. apply Himp. by right.
Qed.


(** *** On a concrete input *)

Lemma stands_zero (x : float) (s : bool) : Prim2SF x = S754_zero s → stands x 0.
Proof. intros E. unfold stands, unbounded, R_of_float. rewrite E. split; reflexivity. Qed.

Lemma stands_dyadic (x : float) (m p : positive) (d : Z) :
  Prim2SF x = S754_finite false m (Z.neg p) →
  (2 ^ Z.pos p)%Z = d →
  stands x (IZR (Z.pos m) / IZR d).
Proof.
  intros E <-. unfold stands, unbounded, R_of_float. rewrite E.
  split; [reflexivity|]. cbv zeta iota. unfold powerRZ.
  rewrite <- (positive_nat_Z p), <- pow_IZR. reflexivity.
Qed.

(** The number a float literal stands for, computed. *)
Ltac number x :=
  let sf := eval vm_compute in (Prim2SF x) in
  lazymatch sf with
  | S754_zero ?s =>
      rewrite (proj2 (stands_zero x s ltac:(vm_compute; reflexivity)))
  | S754_finite false ?m (Z.neg ?p) =>
      let d := eval vm_compute in (2 ^ Z.pos p)%Z in
      rewrite (proj2 (stands_dyadic x m p d ltac:(vm_compute; reflexivity)
                        ltac:(vm_compute; reflexivity)))
  end.

Ltac numbers :=
  repeat match goal with
         | |- context [R_of_float ?x] => number x
         end.

Ltac exactly :=
  split; [vm_compute; reflexivity|numbers; lra].


End Roundless.

(** * Further properties *)

(** ** In any arithmetic *)

Section Further.
Context {num : Type} `{Number num}.
Implicit Types (h : Host num) (options : Options num).
Implicit Types (p point : Sample num) (gridFeature : Cell num).
Local Open Scope js_scope.

(** *** The shape of the result *)

Lemma finish_annotated options gridFeature (acc : num * num) (r : Cell num) :
  finish options gridFeature acc = Ok r → annotated options gridFeature r.
Proof.
  destruct acc as [zw sw]. unfold finish, paint, clone.
  destruct (breakProperties options) as [table|]; [|discriminate].
  destruct (tableGet table _) as [b|]; [|discriminate].
  intros [= <-]. exists (zw / sw). right. exists (fillcolor b). reflexivity.
Qed.

Lemma finish2_annotated options gridFeature (acc : num * num) (r : Cell num) :
  finish2 options gridFeature acc = Ok r → annotated options gridFeature r.
Proof.
  destruct acc as [zw sw]. unfold finish2, paint2, clone.
  destruct (breakProperties options) as [table|]; [|discriminate].
  destruct (tableGet table _) as [b|]; intros [= <-]; exists (zw / sw).
  - right. exists (fillcolor b). reflexivity.
  - left. reflexivity.
Qed.

Lemma annotated_frame options (g r : Cell num) :
  annotated options g r →
  geometry r = geometry g
  ∧ ∀ k, k ≠ propertyName options → k ≠ colorKey options →
         properties r !! k = properties g !! k.
Proof.
  intros [v [->|[c ->]]]; (split; [reflexivity|]); intros k Hp Hc; simpl.
  - apply lookup_insert_ne. congruence.
  - rewrite !lookup_insert_ne by congruence. reflexivity.
Qed.

Lemma bind_Ok_inv {A B : Type} (c : result A) (k : A → result B) (b : B) :
  c ≫= k = Ok b → ∃ a, c = Ok a ∧ k a = Ok b.
Proof. destruct c as [a|e]; [eauto|discriminate]. Qed.

Lemma interpolate2_Ok_inv h options (points : option (FeatureCollection num num))
    (grid out : FeatureCollection num (value num)) :
  interpolate2 h points grid options = Ok out →
  ∃ pts, points = Some pts
    ∧ collectionOf (features pts) "Point" "input must contain Points" = Ok tt
    ∧ Forall2 (λ g r, ∃ acc, accumulate2 h options (features pts) g = Ok acc
                             ∧ finish2 options g acc = Ok r)
              (features grid) (features out).
Proof.
  unfold interpolate2. destruct points as [pts|]; [|discriminate].
  intros E. exists pts. split; [reflexivity|].
  apply bind_Ok_inv in E as ([] & Hcol & E). split; [exact Hcol|].
  apply bind_Ok_inv in E as (results & Em & [= <-]). simpl.
  apply mapM_Ok_Forall2 in Em.
  eapply Forall2_impl; [exact Em|]. intros g r Eg. simpl in Eg.
  apply bind_Ok_inv in Eg as (acc & Ea & Ef). eauto.
Qed.

Lemma interpolate_Ok_inv h options (points : option (FeatureCollection num num))
    (cellSize : option num) (out : FeatureCollection num (value num)) :
  interpolate h points cellSize options = Ok out →
  ∃ pts c box grid,
    points = Some pts ∧ cellSize = Some c
    ∧ collectionOf (features pts) "Point" "input must contain Points" = Ok tt
    ∧ truthy c = true
    ∧ bbox h (Some pts) = Ok box
    ∧ buildGrid h box c options = Ok grid
    ∧ Forall2 (λ g r, ∃ acc, accumulate h options (features pts) g = Ok acc
                             ∧ finish options g acc = Ok r)
              (features grid) (features out).
Proof.
  unfold interpolate. destruct points as [pts|]; [|discriminate].
  intros E. apply bind_Ok_inv in E as ([] & Hcol & E).
  destruct cellSize as [c|]; [|discriminate].
  destruct (truthy c) eqn:Hc; [|discriminate]. simpl in E.
  apply bind_Ok_inv in E as (box & Hbox & E).
  apply bind_Ok_inv in E as (grid & Hgrid & E).
  apply bind_Ok_inv in E as (results & Em & [= <-]).
  exists pts, c, box, grid. repeat (split; [done|]). simpl.
  apply mapM_Ok_Forall2 in Em.
  eapply Forall2_impl; [exact Em|]. intros g r Eg. simpl in Eg.
  apply bind_Ok_inv in Eg as (acc & Ea & Ef). eauto.
Qed.

(** X4.  A collection returned by [interpolate2] has one cell for each
    cell of the grid, in the same order; each has the geometry of the grid
    cell and its attributes, except the one named by [property], which
    holds a number, and the one named by [colorProperty].  The same holds
    for [interpolate] and the grid it builds. *)
Theorem result_keeps_the_grid h options (points : option (FeatureCollection num num)) :
  (∀ grid out,
     interpolate2 h points grid options = Ok out →
     Forall2 (λ g r, annotated options g r
                     ∧ geometry r = geometry g
                     ∧ ∀ k, k ≠ propertyName options → k ≠ colorKey options →
                            properties r !! k = properties g !! k)
             (features grid) (features out))
  ∧ (∀ cellSize out,
       interpolate h points cellSize options = Ok out →
       ∃ pts c box grid,
         points = Some pts ∧ cellSize = Some c
         ∧ bbox h (Some pts) = Ok box
         ∧ buildGrid h box c options = Ok grid
         ∧ Forall2 (λ g r, annotated options g r
                           ∧ geometry r = geometry g
                           ∧ ∀ k, k ≠ propertyName options → k ≠ colorKey options →
                                  properties r !! k = properties g !! k)
                   (features grid) (features out)).
Proof.
  split.
  - intros grid out E.
    apply interpolate2_Ok_inv in E as (pts & _ & _ & Hcells).
    eapply Forall2_impl; [exact Hcells|]. intros g r (acc & _ & Ef).
    apply finish2_annotated in Ef. split; [exact Ef|]. apply annotated_frame, Ef.
  - intros cellSize out E.
    apply interpolate_Ok_inv in E
      as (pts & c & box & grid & -> & -> & _ & _ & Hbox & Hgrid & Hcells).
    exists pts, c, box, grid. repeat (split; [done|]).
    eapply Forall2_impl; [exact Hcells|]. intros g r (acc & _ & Ef).
    apply finish_annotated in Ef. split; [exact Ef|]. apply annotated_frame, Ef.
Qed.

(** *** The filter, and the two entry points together *)

Lemma accumulateStep2_passing h options gridFeature (acc : num * num) p z :
  zValueOf (propertyName options) p = Ok z →
  passes options z = true →
  accumulateStep2 h options gridFeature acc p
  = accumulateStep h options gridFeature acc p.
Proof.
  intros Hz Hp. unfold accumulateStep2, accumulateStep. destruct acc as [zw sw].
  rewrite Hz. simpl. rewrite Hp.
  destruct (distance h _ _ _); reflexivity.
Qed.

Lemma foldM_filter_passing h options gridFeature (points : list (Sample num)) :
  (∀ p, p ∈ points → ∃ z, zValueOf (propertyName options) p = Ok z) →
  ∀ acc,
    foldM (accumulateStep2 h options gridFeature) acc points
    = foldM (accumulateStep h options gridFeature) acc
            (List.filter (passing options) points)
    ∧ foldM (accumulateStep2 h options gridFeature) acc points
      = foldM (accumulateStep2 h options gridFeature) acc
              (List.filter (passing options) points).
Proof.
  induction points as [|p points IH]; intros Hall acc; [split; reflexivity|].
  destruct (Hall p) as [z Hz]; [by left|].
  assert (Hrest : ∀ q, q ∈ points → ∃ z, zValueOf (propertyName options) q = Ok z)
    by (intros q Hq; apply Hall; by right).
  assert (Hpass : passing options p = passes options z)
    by (unfold passing; rewrite Hz; reflexivity).
  simpl List.filter. rewrite Hpass.
  destruct (passes options z) eqn:Hp.
  - rewrite !foldM_cons, (accumulateStep2_passing _ _ _ _ _ _ Hz Hp).
    destruct (accumulateStep h options gridFeature acc p) as [acc'|e];
      [simpl; apply (IH Hrest)|split; reflexivity].
  - rewrite foldM_cons, (accumulateStep2_skip _ _ _ _ _ _ Hz Hp). simpl. apply (IH Hrest).
Qed.

Lemma collectionOf_filter {A : Type} (f : Feature num A → bool)
    (l : list (Feature num A)) type name :
  collectionOf l type name = Ok tt →
  collectionOf (List.filter f l) type name = Ok tt.
Proof.
  induction l as [|x l IH]; [done|]. simpl.
  destruct (String.eqb _ _) eqn:E; [|discriminate]. intros Hl.
  destruct (f x); [simpl; rewrite E|]; apply IH, Hl.
Qed.

(** X5.  The filter of [interpolate2] is a filter on the collection: when
    every sample has a value, the sums [interpolate2] computes for a cell
    are the sums [interpolate] computes on the samples that pass, and
    [interpolate2] returns on the whole collection what it returns on the
    samples that pass. *)
Theorem filter_is_on_the_collection h options
    (points : FeatureCollection num num) (grid : FeatureCollection num (value num)) :
  (∀ p, p ∈ features points → ∃ z, zValueOf (propertyName options) p = Ok z) →
  collectionOf (features points) "Point" "input must contain Points" = Ok tt →
  (∀ g, accumulate2 h options (features points) g
        = accumulate h options (List.filter (passing options) (features points)) g)
  ∧ interpolate2 h (Some points) grid options
    = interpolate2 h (Some (featureCollection
                              (List.filter (passing options) (features points))))
                   grid options.
Proof.
  intros Hall Hcol. split.
  - intros g. apply (foldM_filter_passing h options g (features points) Hall).
  - unfold interpolate2. simpl features.
    rewrite Hcol, (collectionOf_filter _ _ _ _ Hcol). simpl.
    erewrite mapM_ext_in; [reflexivity|]. intros g _. simpl.
    unfold accumulate2.
    rewrite (proj2 (foldM_filter_passing h options g (features points) Hall _)).
    reflexivity.
Qed.

Lemma foldM_all_passing h options gridFeature (points : list (Sample num)) :
  (∀ p z, p ∈ points → zValueOf (propertyName options) p = Ok z →
          passes options z = true) →
  ∀ acc acc',
    foldM (accumulateStep h options gridFeature) acc points = Ok acc' →
    foldM (accumulateStep2 h options gridFeature) acc points = Ok acc'.
Proof.
  induction points as [|p points IH]; intros Hall acc acc'; [done|].
  rewrite !foldM_cons. intros E. apply bind_Ok_inv in E as (acc1 & E1 & E).
  assert (E2 : accumulateStep2 h options gridFeature acc p = Ok acc1).
  { destruct (zValueOf (propertyName options) p) as [z|e] eqn:Hz.
    - rewrite (accumulateStep2_passing _ _ _ _ _ _ Hz (Hall p z ltac:(by left) Hz)).
      exact E1.
    - unfold accumulateStep in E1. destruct acc as [zw sw].
      destruct (distance h _ _ _); [|discriminate]. simpl in E1.
      rewrite Hz in E1. discriminate. }
  rewrite E2. simpl. apply IH; [|exact E].
  intros q z Hq. apply Hall. by right.
Qed.

Lemma finish_finish2_tem options gridFeature (acc : num * num) (r : Cell num) :
  propertyName options = "tem" →
  finish options gridFeature acc = Ok r →
  finish2 options gridFeature acc = Ok r.
Proof.
  intros Hp. destruct acc as [zw sw]. unfold finish, finish2. rewrite Hp.
  change (orderOf2 "tem" (zw / sw)) with (orderOf (zw / sw)).
  unfold paint, paint2. destruct (breakProperties options) as [table|]; [|done].
  destruct (tableGet table _); done.
Qed.

Lemma buildGrid_square h (box : list num) (cellSize : num) options :
  gridTypeName options = "square" ∨ gridTypeName options = "squares" →
  buildGrid h box cellSize options = squareGrid h box (Some cellSize) options.
Proof. intros [E|E]; unfold buildGrid; rewrite E; reflexivity. Qed.

(** X6.  What [interpolate] returns for a square grid under the property
    ['tem'] is what [interpolate2] returns on the grid of [genSquareGrid],
    when the threshold [valid] lets every sample pass. *)
Theorem interpolate_through_grid h options (points : FeatureCollection num num)
    (cellSize : num) (out : FeatureCollection num (value num)) :
  propertyName options = "tem" →
  gridTypeName options = "square" ∨ gridTypeName options = "squares" →
  (∀ p z, p ∈ features points → zValueOf (propertyName options) p = Ok z →
          passes options z = true) →
  interpolate h (Some points) (Some cellSize) options = Ok out →
  ∃ grid,
    genSquareGrid h (Some points) (Some cellSize) options = Ok grid
    ∧ interpolate2 h (Some points) grid options = Ok out.
Proof.
  intros Hp Hg Hall E.
  apply interpolate_Ok_inv in E
    as (pts & c & box & grid & [= <-] & [= <-] & Hcol & _ & Hbox & Hgrid & Hcells).
  exists grid. split.
  - unfold genSquareGrid. rewrite Hbox. simpl.
    rewrite <- (buildGrid_square h box cellSize options Hg). exact Hgrid.
  - unfold interpolate2. rewrite Hcol. simpl.
    rewrite (mapM_Forall2_Ok _ (features grid) (features out)).
    + destruct out; reflexivity.
    + eapply Forall2_impl; [exact Hcells|]. intros g r (acc & Ea & Ef). simpl.
      unfold accumulate2.
      rewrite (foldM_all_passing h options g (features points) Hall _ _ Ea). simpl.
      apply finish_finish2_tem; assumption.
Qed.

(** *** What a painted cell carries *)

Lemma painted_cell (g : Cell num) (name key : string) (v : num) (c : string) :
  geometry (setProperty (setProperty g name (VNum v)) key (VStr c)) = geometry g
  ∧ properties (setProperty (setProperty g name (VNum v)) key (VStr c)) !! key
    = Some (VStr c)
  ∧ (key ≠ name →
     properties (setProperty (setProperty g name (VNum v)) key (VStr c)) !! name
     = Some (VNum v)).
Proof.
  split; [reflexivity|]. split; simpl.
  - apply lookup_insert_eq.
  - intros Hne. rewrite lookup_insert_ne by exact Hne. apply lookup_insert_eq.
Qed.

Lemma Forall2_map_r {A B : Type} (P : A → B → Prop) (f : A → B) (l : list A) :
  (∀ x, x ∈ l → P x (f x)) → Forall2 P l (map f l).
Proof.
  induction l as [|x l IH]; intros Hall; constructor.
  - apply Hall. by left.
  - apply IH. intros y Hy. apply Hall. by right.
Qed.

End Further.

(** ** On binary64 *)

Section FurtherBinary64.
Local Open Scope float_scope.

Lemma SFleb_trans (x y z : spec_float) :
  SFleb x y = true → SFleb y z = true → SFleb x z = true.
Proof.
  unfold SFleb.
  destruct x as [sx|sx| |sx mx ex], y as [sy|sy| |sy my ey], z as [sz|sz| |sz mz ez];
    simpl; try discriminate; try reflexivity;
    try (destruct sx; try discriminate; try reflexivity;
         destruct sy; try discriminate; try reflexivity;
         destruct sz; try discriminate; reflexivity);
    try (destruct sx; try discriminate; try reflexivity;
         destruct sz; try discriminate; reflexivity);
    try (destruct sx; try discriminate; try reflexivity;
         destruct sy; try discriminate; reflexivity);
    try (destruct sy; try discriminate; try reflexivity;
         destruct sz; try discriminate; reflexivity).
  all: destruct sx, sy, sz; simpl; try discriminate; try reflexivity.
  all: change (Pos.compare_cont Eq mx my) with (mx ?= my)%positive;
       change (Pos.compare_cont Eq my mz) with (my ?= mz)%positive;
       change (Pos.compare_cont Eq mx mz) with (mx ?= mz)%positive.
  all: destruct (Z.compare_spec ex ey), (Z.compare_spec ey ez),
         (Z.compare_spec ex ez); simpl; subst; try discriminate; try reflexivity;
       try lia.
  all: destruct (Pos.compare_spec mx my), (Pos.compare_spec my mz),
         (Pos.compare_spec mx mz); simpl; subst; try discriminate;
       try reflexivity; try lia.
Qed.

Lemma leb_trans (x y z : float) :
  (x <=? y) = true → (y <=? z) = true → (x <=? z) = true.
Proof. rewrite !leb_spec. apply SFleb_trans. Qed.

(** *** The threshold ladders *)

Ltac split_ladder v :=
  repeat match goal with
         | |- context [if (v <=? ?c) then _ else _] =>
             let E := fresh "E" in destruct (v <=? c) eqn:E
         end.

Ltac ladder_order v v' Hle :=
  first
    [ reflexivity
    | match goal with
      | E : (v <=? ?c) = false, E' : (v' <=? ?c) = true |- _ =>
          rewrite (leb_trans v v' c Hle E') in E; discriminate E
      end ].

(** X8.  The two threshold ladders are monotone: a greater wind speed or
    precipitation never gets a lower bucket. *)
Theorem ladders_are_monotone (v v' : float) :
  (v <=? v') = true →
  (orderOf2 "pre1h" v <=? orderOf2 "pre1h" v') = true
  ∧ (orderOf2 "winSMax" v <=? orderOf2 "winSMax" v') = true.
Proof.
  intros Hle. split.
  - unfold orderOf2. simpl String.eqb. cbv iota.
    change (@nle float binary64) with PrimFloat.leb.
    change (@lit float binary64) with (λ x : float, x). cbv beta.
    split_ladder v; split_ladder v'; ladder_order v v' Hle.
  - unfold orderOf2. simpl String.eqb. cbv iota.
    change (@nle float binary64) with PrimFloat.leb.
    change (@lit float binary64) with (λ x : float, x). cbv beta.
    split_ladder v; split_ladder v'; ladder_order v v' Hle.
Qed.

(** *** Cells without data *)

Lemma tableGet_at (table : list Break) (k : float) (i : nat) (b : Break) :
  index64 k = Some (Z.of_nat i) →
  table !! i = Some b →
  tableGet table k = Some b.
Proof.
  intros Hk Hb. unfold tableGet. change (@index float binary64 k) with (index64 k).
  rewrite Hk. apply lookup_lt_Some in Hb as Hlt.
  destruct (Z.ltb_spec (Z.of_nat i) (Z.of_nat (length table))); [|lia].
  rewrite Nat2Z.id. exact Hb.
Qed.


(** *** No sample at all *)

(** X10.  [interpolate] on a collection without features: every cell of
    the grid the host builds would get [0 / 0], and NaN has no bucket, so
    the call ends in a [TypeError] unless the grid has no cell, in which
    case the empty collection is returned. *)
Theorem interpolate_no_samples (h : Host float) (options : Options float)
    (cellSize : float) (box : list float)
    (grid : FeatureCollection float (value float)) :
  truthy cellSize = true →
  bbox h (Some (featureCollection [])) = Ok box →
  buildGrid h box cellSize options = Ok grid →
  (features grid = [] →
     interpolate h (Some (featureCollection [])) (Some cellSize) options
     = Ok (featureCollection []))
  ∧ (features grid ≠ [] →
       interpolate h (Some (featureCollection [])) (Some cellSize) options
       = Throw TypeError).
Proof.
  intros Hcs Hbox Hgrid.
  rewrite (interpolate_cells h options (featureCollection []) cellSize box grid
             eq_refl Hcs Hbox Hgrid).
  split.
  - intros ->. reflexivity.
  - intros Hne. destruct (features grid) as [|g gs]; [done|].
    rewrite (mapM_Throw_head _ _ _ TypeError); [reflexivity|].
    simpl. unfold paint.
    destruct (breakProperties options) as [table|]; [|reflexivity].
    unfold tableGet.
    change (index (orderOf (0 / 0))) with (@None Z). reflexivity.
Qed.

End FurtherBinary64.

(** ** The further properties on concrete inputs *)

Section FurtherRuns.
Local Open Scope float_scope.

Ltac members Hin :=
  apply list_elem_of_In in Hin; vm_compute in Hin;
  repeat (destruct Hin as [<-|Hin]); [..|destruct Hin].

Lemma filter_is_on_the_collection_witness :
  List.filter (passing (onProperty "tem" 1000)) [reading; sentinel] = [reading]
  ∧ interpolate2 planar64 (Some (featureCollection [reading; sentinel])) originGrid
                 (onProperty "tem" 1000)
    = interpolate2 planar64
        (Some (featureCollection
                 (List.filter (passing (onProperty "tem" 1000)) [reading; sentinel])))
        originGrid (onProperty "tem" 1000).
Proof.
  split; [vm_compute; reflexivity|].
  apply (filter_is_on_the_collection planar64 (onProperty "tem" 1000)
           (featureCollection [reading; sentinel]) originGrid).
  - intros p Hp. members Hp; eexists; vm_compute; reflexivity.
  - vm_compute; reflexivity.
Defined.

Lemma interpolate_through_grid_witness :
  ∃ out grid,
    interpolate planar64 (Some corners) (Some 4) onSquares = Ok out
    ∧ genSquareGrid planar64 (Some corners) (Some 4) onSquares = Ok grid
    ∧ interpolate2 planar64 (Some corners) grid onSquares = Ok out.
Proof.
  assert (∃ out, interpolate planar64 (Some corners) (Some 4) onSquares = Ok out)
    as [out E] by (eexists; vm_compute; reflexivity).
  destruct (interpolate_through_grid planar64 onSquares corners 4 out)
    as (grid & Hg & H2).
  - reflexivity.
  - left. reflexivity.
  - intros p z Hp Hz. members Hp; vm_compute in Hz; injection Hz as <-;
      vm_compute; reflexivity.
  - exact E.
  - exists out, grid. split; [exact E|]. split; [exact Hg|exact H2].
Defined.

Lemma ladders_are_monotone_witness :
  (orderOf2 "pre1h" 3 <=? orderOf2 "pre1h" 12) = true
  ∧ (orderOf2 "winSMax" 3 <=? orderOf2 "winSMax" 12) = true.
Proof. apply (ladders_are_monotone 3 12). reflexivity. Defined.


Lemma interpolate_no_samples_witness :
  interpolate planar64 (Some (featureCollection [])) (Some 1) onPoints
  = Ok (featureCollection [])
  ∧ interpolate (boxedHost [0; 0; 1; 1]) (Some (featureCollection [])) (Some 1)
                onPoints
    = Throw TypeError.
Proof.
  split.
  - apply (interpolate_no_samples planar64 onPoints 1
             [infinity; infinity; neg_infinity; neg_infinity] (featureCollection []));
      vm_compute; reflexivity.
  - eapply (interpolate_no_samples (boxedHost [0; 0; 1; 1]) onPoints 1 [0; 0; 1; 1]).
    + reflexivity.
    + reflexivity.
    + vm_compute; reflexivity.
    + vm_compute. discriminate.
Defined.

End FurtherRuns.

(** ** The ladders and the table *)

Section FurtherLadders.
Local Open Scope float_scope.

Lemma pre1h_range {num : Type} `{Number num} (v : num) :
  In (orderOf2 "pre1h" v) (map lit [0; 1; 2; 3; 4; 5; 6; 7; 8]).
Proof.
  unfold orderOf2. simpl String.eqb. cbv iota.
  repeat match goal with
         | |- context [if nle v ?c then _ else _] =>
             destruct (nle v c); [simpl; tauto|]
         end.
  simpl; tauto.
Qed.

Lemma tableGet_small (table : list Break) (k : float) (i : nat) :
  index64 k = Some (Z.of_nat i) →
  (i < length table)%nat →
  ∃ b, tableGet table k = Some b.
Proof.
  intros Hk Hi. destruct (lookup_lt_is_Some_2 table i Hi) as [b Hb].
  exists b. exact (tableGet_at table k i b Hk Hb).
Qed.

(** Under the ladder schemes every value, NaN included, has its bucket in
    a table of 17 entries for ['winSMax'] and of 9 for ['pre1h']. *)
Lemma ladder_bucket_exists (v : float) (table : list Break) :
  ((17 <= length table)%nat →
     ∃ b, tableGet table (orderOf2 "winSMax" v) = Some b)
  ∧ ((9 <= length table)%nat →
       ∃ b, tableGet table (orderOf2 "pre1h" v) = Some b).
Proof.
  split; intros Hlen.
  - pose proof (winSMax_range v) as Hin. simpl in Hin.
    repeat destruct Hin as [<-|Hin]; try contradiction;
      match goal with
      | |- ∃ b, tableGet table ?k = Some b =>
          first [ apply (tableGet_small table k 0 eq_refl)
                | apply (tableGet_small table k 1 eq_refl)
                | apply (tableGet_small table k 3 eq_refl)
                | apply (tableGet_small table k 4 eq_refl)
                | apply (tableGet_small table k 5 eq_refl)
                | apply (tableGet_small table k 6 eq_refl)
                | apply (tableGet_small table k 7 eq_refl)
                | apply (tableGet_small table k 8 eq_refl)
                | apply (tableGet_small table k 9 eq_refl)
                | apply (tableGet_small table k 10 eq_refl)
                | apply (tableGet_small table k 11 eq_refl)
                | apply (tableGet_small table k 12 eq_refl)
                | apply (tableGet_small table k 13 eq_refl)
                | apply (tableGet_small table k 14 eq_refl)
                | apply (tableGet_small table k 15 eq_refl)
                | apply (tableGet_small table k 16 eq_refl) ]
      end; lia.
  - pose proof (pre1h_range v) as Hin. simpl in Hin.
    repeat destruct Hin as [<-|Hin]; try contradiction;
      match goal with
      | |- ∃ b, tableGet table ?k = Some b =>
          first [ apply (tableGet_small table k 0 eq_refl)
                | apply (tableGet_small table k 1 eq_refl)
                | apply (tableGet_small table k 2 eq_refl)
                | apply (tableGet_small table k 3 eq_refl)
                | apply (tableGet_small table k 4 eq_refl)
                | apply (tableGet_small table k 5 eq_refl)
                | apply (tableGet_small table k 6 eq_refl)
                | apply (tableGet_small table k 7 eq_refl)
                | apply (tableGet_small table k 8 eq_refl) ]
      end; lia.
Qed.



End FurtherLadders.
